(** * Context-scoped, multi-sink log routing of aurimyth.foundation_kit

    A shallow embedding of [aurimyth/foundation_kit/common/logging/__init__.py]
    together with the parts of [contextvars], [uuid] and [loguru] that the
    module drives, followed by the properties of the routing mechanism.

    Conventions.
    - A Python [str] is the Rocq [string] of its UTF-8 bytes; its length
      is the number of its code points.  On ASCII strings case mapping and
      stripping are computed here; on other strings they are what the
      host's Unicode tables say, a parameter of the model ([Host]).
    - Module-level state ([_log_config], the loguru core, the context
      variables of the running execution context, the operating system's
      random source) is threaded explicitly through a state-and-exception
      monad [M]; a raised exception keeps the state reached so far, as in
      Python.
    - Closures handed to loguru (filters, the patcher) are first-order data
      ([SinkFilter], [Patcher]) with an interpreter next to them.
    - A level is a name with a severity number: loguru's seven built-in
      levels, the levels an application registers and the numeric levels
      of [logger.log(45, ...)].  What loguru's option parsers make of a
      rotation, a retention or a format is a parameter of the model too;
      [logger.add] raises where they do.  The file system is taken to be
      in order. *)

From Stdlib Require Import ZArith NArith List Ascii String Bool Lia.
From stdpp Require Import base option strings list gmap pretty.

Local Open Scope string_scope.
Local Open Scope Z_scope.

(* ===================================================================== *)
(** ** Exceptions and the host *)
(* ===================================================================== *)

(** Python exceptions by class: the two that the module and loguru raise
    by name, any other class under [Exception], and the classes that derive
    from [BaseException] directly ([KeyboardInterrupt], [SystemExit],
    [asyncio.CancelledError]), which [except Exception] does not catch. *)
Inductive exn :=
| RuntimeError (msg : string)
| ValueError (msg : string)
| OtherException (class_name text : string)
| BaseException (class_name text : string).

(** [isinstance(exc, Exception)]. *)
Definition is_exception (exc : exn) : bool :=
  match exc with
  | BaseException _ _ => false
  | _ => true
  end.

(** What the module takes from its host and is no code of the repository:
    - Python's Unicode tables: what [str.lower], [str.upper] and
      [str.strip] make of a string that is not ASCII;
    - the levels the application has registered with loguru besides the
      built-in ones, with their severity numbers;
    - loguru's parsers of the [rotation], [retention] and [format] options
      of [logger.add]: [None] when the option is accepted, [Some e] when
      [logger.add] raises [e] on it.
    They are parameters of the model. *)
Class Host := {
  unicode_lower : string -> string;
  unicode_upper : string -> string;
  unicode_strip : string -> string;
  custom_level : string -> option N;
  rotation_error : string -> option exn;
  retention_error : string -> option exn;
  format_error : string -> option exn
}.

(* ===================================================================== *)
(** ** Python strings *)
(* ===================================================================== *)

Module PyStr.

Definition code (c : ascii) : N := N_of_ascii c.

(** [s.isascii()]: every byte is below 128. *)
Fixpoint isascii (s : string) : bool :=
  match s with
  | EmptyString => true
  | String c r => (code c <? 128)%N && isascii r
  end.

(** A byte that continues a code point in UTF-8: [10xxxxxx]. *)
Definition is_continuation (c : ascii) : bool :=
  ((128 <=? code c) && (code c <? 192))%N.

(** [len(s)]: the number of code points. *)
Fixpoint len (s : string) : nat :=
  match s with
  | EmptyString => O
  | String c r => ((if is_continuation c then 0 else 1) + len r)%nat
  end.

(** [str.isspace] on the ASCII range: TAB..CR, FS..US and SPACE. *)
Definition isspace (c : ascii) : bool :=
  let n := code c in
  ((9 <=? n) && (n <=? 13) || (28 <=? n) && (n <=? 32))%N.

Definition lower_char (c : ascii) : ascii :=
  let n := code c in
  if ((65 <=? n) && (n <=? 90))%N then ascii_of_N (n + 32) else c.

Definition upper_char (c : ascii) : ascii :=
  let n := code c in
  if ((97 <=? n) && (n <=? 122))%N then ascii_of_N (n - 32) else c.

Fixpoint map_chars (f : ascii -> ascii) (s : string) : string :=
  match s with
  | EmptyString => EmptyString
  | String c r => String (f c) (map_chars f r)
  end.

(** [s.lower()] and [s.upper()] of an ASCII string. *)
Definition ascii_lower : string -> string := map_chars lower_char.
Definition ascii_upper : string -> string := map_chars upper_char.

(** [s.lstrip()] of an ASCII string. *)
Fixpoint lstrip (s : string) : string :=
  match s with
  | EmptyString => EmptyString
  | String c r => if isspace c then lstrip r else s
  end.

(** [s.rstrip()] of an ASCII string: a character is dropped when it is a
    space and everything after it has been dropped. *)
Fixpoint rstrip (s : string) : string :=
  match s with
  | EmptyString => EmptyString
  | String c r =>
      match rstrip r with
      | EmptyString => if isspace c then EmptyString else String c EmptyString
      | r' => String c r'
      end
  end.

(** [s.strip()] of an ASCII string. *)
Definition ascii_strip (s : string) : string := rstrip (lstrip s).

(** [s.lower()], [s.upper()] and [s.strip()]. *)
Section Unicode.

Context {host : Host}.

Definition lower (s : string) : string :=
  if isascii s then ascii_lower s else unicode_lower s.

Definition upper (s : string) : string :=
  if isascii s then ascii_upper s else unicode_upper s.

Definition strip (s : string) : string :=
  if isascii s then ascii_strip s else unicode_strip s.

End Unicode.

(** Truth value of a string: [bool(s)]. *)
Definition truthy (s : string) : bool :=
  match s with EmptyString => false | _ => true end.

(** [c * n] for a one-character string. *)
Fixpoint replicate (n : nat) (c : ascii) : string :=
  match n with
  | O => EmptyString
  | S n' => String c (replicate n' c)
  end.

(** [s.ljust(w, fill)], [s.rjust(w, fill)] and the centring of
    [format(s, "^w")]. *)
Definition ljust (w : nat) (fill : ascii) (s : string) : string :=
  s ++ replicate (w - len s) fill.
Definition rjust (w : nat) (fill : ascii) (s : string) : string :=
  replicate (w - len s) fill ++ s.
Definition center (w : nat) (fill : ascii) (s : string) : string :=
  let pad := (w - len s)%nat in
  let left := Nat.div pad 2 in
  replicate left fill ++ s ++ replicate (pad - left) fill.

(** [s[:n]]: the first [n] code points; the continuation bytes that
    follow a byte belong to its code point. *)
Fixpoint take_go (n : nat) (s : string) : string :=
  match s with
  | EmptyString => EmptyString
  | String c r =>
      if is_continuation c then String c (take_go n r)
      else match n with
           | O => EmptyString
           | S n' => String c (take_go n' r)
           end
  end.

Definition take (n : nat) (s : string) : string :=
  match n with
  | O => EmptyString
  | _ => take_go n s
  end.

(** [s.startswith(p)]. *)
Definition startswith (p s : string) : bool := String.prefix p s.

(** [s.endswith("/")]. *)
Fixpoint ends_with_slash (s : string) : bool :=
  match s with
  | EmptyString => false
  | String c EmptyString => Ascii.eqb c "/"
  | String _ r => ends_with_slash r
  end.

End PyStr.

(** [os.path.join(a, b)] on a POSIX host. *)
Definition path_join (a b : string) : string :=
  if PyStr.startswith "/" b then b
  else if negb (PyStr.truthy a) || PyStr.ends_with_slash a then a ++ b
  else a ++ "/" ++ b.

(* ===================================================================== *)
(** ** Service context *)
(* ===================================================================== *)

(** [class ServiceContext(str, Enum)]. *)
Inductive ServiceContext := API | SCHEDULER | WORKER.

#[global] Instance ServiceContext_eq_dec : EqDecision ServiceContext.
Proof. solve_decision. Defined.

(** The member's [.value]. *)
Definition value (c : ServiceContext) : string :=
  match c with
  | API => "api"
  | SCHEDULER => "scheduler"
  | WORKER => "worker"
  end.

(** [ServiceContext(val)]: lookup by value; [None] is Python's
    [ValueError]. *)
Definition ServiceContext_of_value (val : string) : option ServiceContext :=
  if String.eqb val "api" then Some API
  else if String.eqb val "scheduler" then Some SCHEDULER
  else if String.eqb val "worker" then Some WORKER
  else None.

(** An argument of type [ServiceContext | str]. *)
Inductive ctx_arg :=
| CtxEnum (c : ServiceContext)
| CtxStr (s : string).

Section ServiceContextOf.

Context {host : Host}.

Definition _to_service_context (ctx : ctx_arg) : ServiceContext :=
  match ctx with
  | CtxEnum c => c
  | CtxStr s =>
      let val := PyStr.lower (PyStr.strip s) in
      let val := if String.eqb val "app" then value API else val in
      match ServiceContext_of_value val with
      | Some c => c
      | None => API
      end
  end.

End ServiceContextOf.

(* ===================================================================== *)
(** ** Trace identifiers: [str(uuid.uuid4())] *)
(* ===================================================================== *)

Module Uuid.

Definition hex_digit (n : Z) : ascii :=
  match n with
  | 0 => "0" | 1 => "1" | 2 => "2" | 3 => "3" | 4 => "4" | 5 => "5"
  | 6 => "6" | 7 => "7" | 8 => "8" | 9 => "9" | 10 => "a" | 11 => "b"
  | 12 => "c" | 13 => "d" | 14 => "e" | _ => "f"
  end%char.

(** ['%0wx' % v] for [0 <= v < 16^w]: [w] lower-case hexadecimal digits,
    most significant first. *)
Fixpoint hex_fixed (w : nat) (v : Z) : string :=
  match w with
  | O => EmptyString
  | S w' => hex_fixed w' (v / 16) ++ String (hex_digit (v mod 16)) EmptyString
  end.

(** [UUID(bytes=os.urandom(16), version=4).int], from the integer the
    sixteen random bytes spell: the variant bits are set to RFC 4122 and
    the version nibble to 4. *)
Definition uuid4_int (rnd : Z) : Z :=
  let i := rnd mod 2 ^ 128 in
  let i := Z.land i (Z.lnot (Z.shiftl 0xc000 48)) in
  let i := Z.lor i (Z.shiftl 0x8000 48) in
  let i := Z.land i (Z.lnot (Z.shiftl 0xf000 64)) in
  Z.lor i (Z.shiftl 4 76).

(** [UUID.__str__]: the 32 digits cut 8-4-4-4-12. *)
Definition uuid_str (i : Z) : string :=
  let hex := hex_fixed 32 i in
  substring 0 8 hex ++ "-" ++ substring 8 4 hex ++ "-" ++
  substring 12 4 hex ++ "-" ++ substring 16 4 hex ++ "-" ++
  substring 20 12 hex.

End Uuid.


(* ===================================================================== *)
(** ** Records, levels and the values of [extra] *)
(* ===================================================================== *)

(** The Python values that occur in a record's [extra] mapping. *)
Inductive pyval :=
| PyNone
| PyBool (b : bool)
| PyInt (z : Z)
| PyStr (s : string).

(** [bool(v)]. *)
Definition truthy (v : pyval) : bool :=
  match v with
  | PyNone => false
  | PyBool b => b
  | PyInt z => negb (z =? 0)
  | PyStr s => PyStr.truthy s
  end.

(** [str(v)]. *)
Definition py_str (v : pyval) : string :=
  match v with
  | PyNone => "None"
  | PyBool true => "True"
  | PyBool false => "False"
  | PyInt z => pretty z
  | PyStr s => s
  end.

(** [v == c] for a string [c]. *)
Definition py_eq_str (v : pyval) (c : string) : bool :=
  match v with
  | PyStr s => String.eqb s c
  | _ => false
  end.

(** A level as loguru hands it to a record and to a handler: its name
    and its severity number.  A call such as [logger.log(45, ...)] logs at
    the level named ["Level 45"] with number 45. *)
Record Level := {
  level_name : string;
  level_no : Z
}.

#[global] Instance Level_eq_dec : EqDecision Level.
Proof. solve_decision. Defined.

(** loguru's built-in levels. *)
Definition TRACE : Level := {| level_name := "TRACE"; level_no := 5 |}.
Definition DEBUG : Level := {| level_name := "DEBUG"; level_no := 10 |}.
Definition INFO : Level := {| level_name := "INFO"; level_no := 20 |}.
Definition SUCCESS : Level := {| level_name := "SUCCESS"; level_no := 25 |}.
Definition WARNING : Level := {| level_name := "WARNING"; level_no := 30 |}.
Definition ERROR : Level := {| level_name := "ERROR"; level_no := 40 |}.
Definition CRITICAL : Level := {| level_name := "CRITICAL"; level_no := 50 |}.

Definition all_levels : list Level :=
  [TRACE; DEBUG; INFO; SUCCESS; WARNING; ERROR; CRITICAL].

Definition builtin_level (name : string) : option Level :=
  List.find (fun l => String.eqb (level_name l) name) all_levels.

(** [logger.level(name)]: a built-in level, or one the application has
    registered; [None] is loguru's
    [ValueError("Level '...' does not exist")]. *)
Definition level_of_name {host : Host} (name : string) : option Level :=
  match builtin_level name with
  | Some l => Some l
  | None =>
      (fun no => {| level_name := name; level_no := Z.of_N no |})
        <$> custom_level name
  end.

Record DateTime := {
  year : Z; month : Z; day : Z; hour : Z; minute : Z; second : Z
}.

(** A loguru record, restricted to the keys the module and its formats
    read. *)
Record LogRecord := {
  r_time : DateTime;
  r_level : Level;
  r_message : string;
  r_name : string;
  r_function : string;
  r_line : Z;
  r_extra : gmap string pyval
}.

Definition with_extra (r : LogRecord) (e : gmap string pyval) : LogRecord :=
  {| r_time := r_time r; r_level := r_level r; r_message := r_message r;
     r_name := r_name r; r_function := r_function r; r_line := r_line r;
     r_extra := e |}.

(** [d.get(key, default)]. *)
Definition dict_get (d : gmap string pyval) (key : string) (default : pyval)
  : pyval :=
  match d !! key with
  | Some v => v
  | None => default
  end.

(* ===================================================================== *)
(** ** Sink filters and handlers *)
(* ===================================================================== *)

(** The three filter closures of the module, each with the value it
    captures through its default argument. *)
Inductive SinkFilter :=
| InfoFilter (c : string)
| ErrorFilter (c : string)
| KeyFilter (key : string).

(** Truth value of the filter's result on a record. *)
Definition eval_filter (f : SinkFilter) (record : LogRecord) : bool :=
  match f with
  | InfoFilter c =>
      py_eq_str (dict_get (r_extra record) "service" PyNone) c
      && negb (existsb (String.eqb (level_name (r_level record)))
                 ["ERROR"; "CRITICAL"])
      && negb (truthy (dict_get (r_extra record) "access" (PyBool false)))
  | ErrorFilter c =>
      py_eq_str (dict_get (r_extra record) "service" PyNone) c
  | KeyFilter key =>
      truthy (dict_get (r_extra record) key (PyBool false))
  end.

Inductive Target :=
| Console
| File (path : string).

(** The arguments of one [logger.add] call, with the level resolved. *)
Record Handler := {
  h_target : Target;
  h_level : Level;
  h_format : string;
  h_filter : option SinkFilter;
  h_rotation : option string;
  h_retention : option string;
  h_encoding : option string;
  h_enqueue : bool;
  h_delay : bool;
  h_colorize : bool
}.

(** A handler without a filter lets every record through. *)
Definition filter_accepts (h : Handler) (record : LogRecord) : bool :=
  match h_filter h with
  | None => true
  | Some f => eval_filter f record
  end.

(** [Handler.emit] up to the write: the level gate, then the filter. *)
Definition handler_accepts (h : Handler) (record : LogRecord) : bool :=
  (level_no (h_level h) <=? level_no (r_level record))
  && filter_accepts h record.

(** The one patcher the module installs. *)
Inductive Patcher := StampPatcher.

(* ===================================================================== *)
(** ** Program state and the monad of effects *)
(* ===================================================================== *)

(** The bindings an execution context ([contextvars.Context]) holds for the
    module's two context variables; [None] is "never set in this context",
    in which case [ContextVar.get] hands out the variable's default. *)
Record Context := {
  _service_context : option ServiceContext;
  _trace_id_var : option string
}.

Definition empty_context : Context :=
  {| _service_context := None; _trace_id_var := None |}.

(** The defaults given to the two [ContextVar] constructors. *)
Definition _service_context_default : ServiceContext := API.
Definition _trace_id_var_default : string := "".

(** The module-level dictionary [_log_config]. *)
Record LogConfig := {
  cfg_log_dir : string;
  cfg_rotation : string;
  cfg_retention_days : Z;
  cfg_file_format : string;
  cfg_initialized : bool
}.

Definition _log_config : LogConfig :=
  {| cfg_log_dir := "logs"; cfg_rotation := "00:00"; cfg_retention_days := 7;
     cfg_file_format := ""; cfg_initialized := false |}.

(** loguru's core: the handlers by identifier in insertion order, the
    identifier counter and the configured patcher. *)
Record Core := {
  handlers : list (nat * Handler);
  handlers_count : nat;
  patcher : option Patcher
}.

(** The core after the module-level [logger.remove()] at import. *)
Definition empty_core : Core :=
  {| handlers := []; handlers_count := 1; patcher := None |}.

Record State := {
  st_config : LogConfig;
  st_core : Core;
  (** the context of the code that is running *)
  st_context : Context;
  (** [os.urandom(16)], as the integer the bytes spell, by draw number *)
  st_urandom : nat -> Z;
  st_drawn : nat;
  (** the wall clock *)
  st_now : DateTime;
  (** directories created so far *)
  st_dirs : gset string;
  (** records handed to handlers, oldest first *)
  st_delivered : list (nat * LogRecord)
}.

Definition set_config (f : LogConfig -> LogConfig) (st : State) : State :=
  {| st_config := f (st_config st); st_core := st_core st;
     st_context := st_context st; st_urandom := st_urandom st;
     st_drawn := st_drawn st; st_now := st_now st; st_dirs := st_dirs st;
     st_delivered := st_delivered st |}.

Definition set_core (f : Core -> Core) (st : State) : State :=
  {| st_config := st_config st; st_core := f (st_core st);
     st_context := st_context st; st_urandom := st_urandom st;
     st_drawn := st_drawn st; st_now := st_now st; st_dirs := st_dirs st;
     st_delivered := st_delivered st |}.

Definition set_context (f : Context -> Context) (st : State) : State :=
  {| st_config := st_config st; st_core := st_core st;
     st_context := f (st_context st); st_urandom := st_urandom st;
     st_drawn := st_drawn st; st_now := st_now st; st_dirs := st_dirs st;
     st_delivered := st_delivered st |}.

Definition set_drawn (n : nat) (st : State) : State :=
  {| st_config := st_config st; st_core := st_core st;
     st_context := st_context st; st_urandom := st_urandom st;
     st_drawn := n; st_now := st_now st; st_dirs := st_dirs st;
     st_delivered := st_delivered st |}.

Definition set_dirs (f : gset string -> gset string) (st : State) : State :=
  {| st_config := st_config st; st_core := st_core st;
     st_context := st_context st; st_urandom := st_urandom st;
     st_drawn := st_drawn st; st_now := st_now st; st_dirs := f (st_dirs st);
     st_delivered := st_delivered st |}.

Definition set_delivered (f : list (nat * LogRecord) -> list (nat * LogRecord))
    (st : State) : State :=
  {| st_config := st_config st; st_core := st_core st;
     st_context := st_context st; st_urandom := st_urandom st;
     st_drawn := st_drawn st; st_now := st_now st; st_dirs := st_dirs st;
     st_delivered := f (st_delivered st) |}.

(** The state right after the module has been imported. *)
Definition initial_state (urandom : nat -> Z) (now : DateTime) : State :=
  {| st_config := _log_config; st_core := empty_core;
     st_context := empty_context; st_urandom := urandom; st_drawn := O;
     st_now := now; st_dirs := ∅; st_delivered := [] |}.

Inductive outcome (A : Type) :=
| Ok (a : A)
| Raise (e : exn).
Arguments Ok {A} a.
Arguments Raise {A} e.

(** A computation: the outcome and the state it leaves. *)
Definition M (A : Type) : Type := State -> outcome A * State.

#[global] Instance M_ret : MRet M := fun A a st => (Ok a, st).
#[global] Instance M_bind : MBind M := fun A B f m st =>
  match m st with
  | (Ok a, st') => f a st'
  | (Raise e, st') => (Raise e, st')
  end.

Definition raise {A} (e : exn) : M A := fun st => (Raise e, st).
Definition gets {A} (f : State -> A) : M A := fun st => (Ok (f st), st).
Definition modify (f : State -> State) : M unit := fun st => (Ok tt, f st).

(** The state a call leaves, whether it returned or raised. *)
Definition exec {A} (m : M A) (st : State) : State := snd (m st).

(** [for x in xs: body(x)]. *)
Fixpoint for_each {A} (xs : list A) (body : A -> M unit) : M unit :=
  match xs with
  | [] => mret tt
  | x :: rest => body x ;; for_each rest body
  end.

(* ===================================================================== *)
(** ** The context store *)
(* ===================================================================== *)

(** [ContextVar.get()] with the variable's default. *)
Definition cv_get {A} (default : A) (binding : option A) : A :=
  match binding with
  | Some v => v
  | None => default
  end.

Definition get_service_context : M ServiceContext :=
  gets (fun st => cv_get _service_context_default
                    (_service_context (st_context st))).

Definition set_service_context {host : Host} (context : ctx_arg) : M unit :=
  modify (set_context (fun c =>
    {| _service_context := Some (_to_service_context context);
       _trace_id_var := _trace_id_var c |})).

(** [uuid.uuid4()]: consumes one draw of the random source. *)
Definition uuid4 : M Z :=
  rnd ← gets (fun st => st_urandom st (st_drawn st));
  modify (fun st => set_drawn (S (st_drawn st)) st);;
  mret (Uuid.uuid4_int rnd).

Definition _trace_id_var_get : M string :=
  gets (fun st => cv_get _trace_id_var_default (_trace_id_var (st_context st))).

Definition _trace_id_var_set (v : string) : M unit :=
  modify (set_context (fun c =>
    {| _service_context := _service_context c; _trace_id_var := Some v |})).

Definition get_trace_id : M string :=
  trace_id ← _trace_id_var_get;
  if negb (PyStr.truthy trace_id) then
    u ← uuid4;
    let trace_id := Uuid.uuid_str u in
    _trace_id_var_set trace_id;;
    mret trace_id
  else mret trace_id.

Definition set_trace_id (trace_id : string) : M unit :=
  _trace_id_var_set trace_id.

(* ===================================================================== *)
(** ** The logger *)
(* ===================================================================== *)

(** The patcher lambda of [setup_logging]:
    [record["extra"].update({"trace_id": get_trace_id(),
                             "service": get_service_context().value})]. *)
Definition run_patcher (p : Patcher) (record : LogRecord) : M LogRecord :=
  match p with
  | StampPatcher =>
      trace_id ← get_trace_id;
      service ← get_service_context;
      mret (with_extra record
              (<["service" := PyStr (value service)]>
                 (<["trace_id" := PyStr trace_id]> (r_extra record))))
  end.

(** [logger.remove()]: every handler goes; counter and patcher stay. *)
Definition logger_remove : M unit :=
  modify (set_core (fun c =>
    {| handlers := []; handlers_count := handlers_count c;
       patcher := patcher c |})).

(** [logger.configure(patcher=p)]. *)
Definition logger_configure (p : Patcher) : M unit :=
  modify (set_core (fun c =>
    {| handlers := handlers c; handlers_count := handlers_count c;
       patcher := Some p |})).

(** The keyword arguments of [logger.add], the level still by name. *)
Record AddArgs := {
  a_target : Target;
  a_level : string;
  a_format : string;
  a_filter : option SinkFilter;
  a_rotation : option string;
  a_retention : option string;
  a_encoding : option string;
  a_enqueue : bool;
  a_delay : bool;
  a_colorize : bool
}.

Definition make_handler (a : AddArgs) (l : Level) : Handler :=
  {| h_target := a_target a; h_level := l; h_format := a_format a;
     h_filter := a_filter a; h_rotation := a_rotation a;
     h_retention := a_retention a; h_encoding := a_encoding a;
     h_enqueue := a_enqueue a; h_delay := a_delay a;
     h_colorize := a_colorize a |}.

(** [raise e] when a check found [e]. *)
Definition check (e : option exn) : M unit :=
  match e with
  | Some e => raise e
  | None => mret tt
  end.

(** What building the sink raises: for a path, [FileSink] parses
    [rotation], then [retention]; a callable is taken as it is. *)
Definition sink_error {host : Host} (a : AddArgs) : option exn :=
  match a_target a with
  | File _ =>
      match a_rotation a ≫= rotation_error with
      | Some e => Some e
      | None => a_retention a ≫= retention_error
      end
  | Console => None
  end.

(** [logger.add(...)]: takes the next identifier, builds the sink,
    resolves the level name (an unknown name raises), prepares the format
    and appends the handler. *)
Definition logger_add {host : Host} (a : AddArgs) : M nat :=
  handler_id ← gets (fun st => handlers_count (st_core st));
  modify (set_core (fun c =>
    {| handlers := handlers c; handlers_count := S (handlers_count c);
       patcher := patcher c |}));;
  check (sink_error a);;
  match level_of_name (a_level a) with
  | None => raise (ValueError ("Level '" ++ a_level a ++ "' does not exist"))
  | Some l =>
      check (format_error (a_format a));;
      modify (set_core (fun c =>
        {| handlers := (handlers c ++ [(handler_id, make_handler a l)])%list;
           handlers_count := handlers_count c; patcher := patcher c |}));;
      mret handler_id
  end.

(** Where a logging call sits in the program. *)
Record CallSite := {
  cs_name : string;
  cs_function : string;
  cs_line : Z
}.

(** [core.min_level] is the least level number among the handlers; the
    test says whether [no] lies below it. *)
Definition below_min_level (no : Z) (c : Core) : bool :=
  forallb (fun ih => no <? level_no (h_level (snd ih))) (handlers c).

(** The records one logging call hands out: every handler that accepts
    the record gets it, in handler order. *)
Definition deliveries (hs : list (nat * Handler)) (record : LogRecord)
  : list (nat * LogRecord) :=
  omap (fun ih => if handler_accepts (snd ih) record
                  then Some (fst ih, record) else None) hs.

(** [Logger._log]: nothing happens without handlers or below the lowest
    handler level; otherwise the record is built, patched, and offered to
    every handler.  [bound] is the [extra] of the logger used
    ([logger.bind(...)]). *)
Definition logger_log (site : CallSite) (bound : gmap string pyval)
    (lvl : Level) (message : string) : M unit :=
  core ← gets st_core;
  match handlers core with
  | [] => mret tt
  | _ =>
      if below_min_level (level_no lvl) core then mret tt
      else
        now ← gets st_now;
        let record :=
          {| r_time := now; r_level := lvl; r_message := message;
             r_name := cs_name site; r_function := cs_function site;
             r_line := cs_line site; r_extra := bound |} in
        record ← match patcher core with
                 | Some p => run_patcher p record
                 | None => mret record
                 end;
        modify (set_delivered (fun d =>
          (d ++ deliveries (handlers core) record)%list))
  end.

(* ===================================================================== *)
(** ** Logging configuration *)
(* ===================================================================== *)

Definition module_name : string := "aurimyth.foundation_kit.common.logging".

(** [f"{filter_key}"] for [filter_key: str | None]. *)
Definition format_opt_str (o : option string) : string :=
  match o with
  | Some s => s
  | None => "None"
  end.

(** [a or b] for an optional string [a]. *)
Definition or_str (a : option string) (b : string) : string :=
  match a with
  | Some s => if PyStr.truthy s then s else b
  | None => b
  end.

(** The keyword arguments of the [logger.add] call of
    [register_log_sink]. *)
Definition custom_args (log_dir rotation : string) (retention_days : Z)
    (name level format : string) (sink_filter : option SinkFilter) : AddArgs :=
  {| a_target := File (path_join log_dir (name ++ "_{time:YYYY-MM-DD}.log"));
     a_rotation := Some rotation;
     a_retention := Some (pretty retention_days ++ " days");
     a_level := level;
     a_format := format;
     a_encoding := Some "utf-8";
     a_enqueue := true;
     a_delay := true;
     a_filter := sink_filter;
     a_colorize := false |}.

Definition not_initialized : exn :=
  RuntimeError "请先调用 setup_logging() 初始化日志系统".

Definition register_log_sink {host : Host} (name : string)
    (filter_key : option string) (level : string)
    (sink_format : option string) : M unit :=
  cfg ← gets st_config;
  if negb (cfg_initialized cfg) then raise not_initialized
  else
    let log_dir := cfg_log_dir cfg in
    let rotation := cfg_rotation cfg in
    let retention_days := cfg_retention_days cfg in
    let default_format :=
      "{time:YYYY-MM-DD HH:mm:ss} | " ++
      "{extra[trace_id]} | " ++
      "{message}" in
    let sink_filter :=
      match filter_key with
      | Some key => if PyStr.truthy key then Some (KeyFilter key) else None
      | None => None
      end in
    logger_add
      (custom_args log_dir rotation retention_days name level
         (or_str sink_format default_format) sink_filter);;
    logger_log {| cs_name := module_name; cs_function := "register_log_sink";
                  cs_line := 169 |} ∅ DEBUG
      ("注册日志 sink: " ++ name ++ " (filter_key=" ++
       format_opt_str filter_key ++ ")").

Record SetupArgs := {
  log_level : string;
  log_dir : option string;
  service_type : ctx_arg;
  enable_file_rotation : bool;
  rotation_time : string;
  retention_days : Z;
  rotation_size : string;
  enable_console : bool
}.

(** The defaults of the signature. *)
Definition default_setup : SetupArgs :=
  {| log_level := "INFO"; log_dir := None; service_type := CtxEnum API;
     enable_file_rotation := true; rotation_time := "00:00";
     retention_days := 7; rotation_size := "100 MB";
     enable_console := true |}.

(** [os.makedirs(d, exist_ok=True)]. *)
Definition os_makedirs (d : string) : M unit :=
  modify (set_dirs (fun ds => {[ d ]} ∪ ds)).

(** [f"{service_type}"]: a plain string as it is, an enum member as
    [ServiceContext.NAME]. *)
Definition format_ctx_arg (a : ctx_arg) : string :=
  match a with
  | CtxStr s => s
  | CtxEnum API => "ServiceContext.API"
  | CtxEnum SCHEDULER => "ServiceContext.SCHEDULER"
  | CtxEnum WORKER => "ServiceContext.WORKER"
  end.

Definition console_format : string :=
  "<green>{time:YYYY-MM-DD HH:mm:ss}</green> | " ++
  "<cyan>[{extra[service]}]</cyan> | " ++
  "<level>{level: <8}</level> | " ++
  "<cyan>{name}:{function}:{line}</cyan> | " ++
  "{extra[trace_id]:.8} - " ++
  "<level>{message}</level>".

Definition file_format : string :=
  "{time:YYYY-MM-DD HH:mm:ss} | " ++
  "{level: <8} | " ++
  "{name}:{function}:{line} | " ++
  "{extra[trace_id]} - " ++
  "{message}".

(** The list [contexts_to_create]. *)
Definition contexts_to_create (service_type_enum : ServiceContext)
  : list string :=
  ([value service_type_enum]
   ++ (if decide (service_type_enum = API) then [value SCHEDULER] else []))%list.

(** The keyword arguments of the five [logger.add] calls of
    [setup_logging], by the local variables they mention. *)
Section SetupSinks.

Variables (log_dir rotation log_level : string) (retention_days : Z).

Definition console_args : AddArgs :=
  {| a_target := Console;
     a_format := console_format;
     a_level := log_level;
     a_colorize := true;
     a_filter := None; a_rotation := None; a_retention := None;
     a_encoding := None; a_enqueue := false; a_delay := false |}.

Definition info_args_dated (ctx : string) : AddArgs :=
  {| a_target :=
       File (path_join log_dir (ctx ++ "_info_{time:YYYY-MM-DD}.log"));
     a_rotation := Some rotation;
     a_retention := Some (pretty retention_days ++ " days");
     a_level := log_level;
     a_format := file_format;
     a_encoding := Some "utf-8";
     a_enqueue := true;
     a_filter := Some (InfoFilter ctx);
     a_delay := false; a_colorize := false |}.

Definition info_args_plain (ctx : string) : AddArgs :=
  {| a_target := File (path_join log_dir (ctx ++ "_info.log"));
     a_rotation := Some rotation;
     a_retention := Some (pretty retention_days ++ " days");
     a_level := log_level;
     a_format := file_format;
     a_encoding := Some "utf-8";
     a_enqueue := true;
     a_filter := Some (InfoFilter ctx);
     a_delay := false; a_colorize := false |}.

Definition error_args_dated (ctx : string) : AddArgs :=
  {| a_target :=
       File (path_join log_dir (ctx ++ "_error_{time:YYYY-MM-DD}.log"));
     a_rotation := Some rotation;
     a_retention := Some (pretty retention_days ++ " days");
     a_level := "ERROR";
     a_format := file_format;
     a_encoding := Some "utf-8";
     a_enqueue := true;
     a_filter := Some (ErrorFilter ctx);
     a_delay := false; a_colorize := false |}.

Definition error_args_plain (ctx : string) : AddArgs :=
  {| a_target := File (path_join log_dir (ctx ++ "_error.log"));
     a_rotation := Some rotation;
     a_retention := Some (pretty retention_days ++ " days");
     a_level := "ERROR";
     a_format := file_format;
     a_encoding := Some "utf-8";
     a_enqueue := true;
     a_filter := Some (ErrorFilter ctx);
     a_delay := false; a_colorize := false |}.

(** The body of the loop [for ctx in contexts_to_create]. *)
Definition add_context_sinks {host : Host} (enable_file_rotation : bool)
    (ctx : string) : M unit :=
  (if enable_file_rotation then logger_add (info_args_dated ctx)
   else logger_add (info_args_plain ctx));;
  (if enable_file_rotation then logger_add (error_args_dated ctx)
   else logger_add (error_args_plain ctx));;
  mret tt.

End SetupSinks.

Definition setup_logging {host : Host} (args : SetupArgs) : M unit :=
  let log_level := PyStr.upper (log_level args) in
  let log_dir := or_str (log_dir args) "logs" in
  os_makedirs log_dir;;
  let rotation :=
    if enable_file_rotation args then rotation_time args
    else rotation_size args in
  let service_type_enum := _to_service_context (service_type args) in
  logger_remove;;
  modify (set_config (fun c =>
    {| cfg_log_dir := log_dir; cfg_rotation := rotation;
       cfg_retention_days := retention_days args;
       cfg_file_format := cfg_file_format c; cfg_initialized := true |}));;
  set_service_context (CtxEnum service_type_enum);;
  modify (set_config (fun c =>
    {| cfg_log_dir := cfg_log_dir c; cfg_rotation := cfg_rotation c;
       cfg_retention_days := cfg_retention_days c;
       cfg_file_format := file_format;
       cfg_initialized := cfg_initialized c |}));;
  logger_configure StampPatcher;;
  (if enable_console args then logger_add (console_args log_level);; mret tt
   else mret tt);;
  let contexts_to_create := contexts_to_create service_type_enum in
  for_each contexts_to_create
    (add_context_sinks log_dir rotation log_level (retention_days args)
       (enable_file_rotation args));;
  logger_log {| cs_name := module_name; cs_function := "setup_logging";
                cs_line := 325 |} ∅ INFO
    ("日志系统初始化完成 | 服务: " ++ format_ctx_arg (service_type args) ++
     " | 级别: " ++ log_level ++ " | 目录: " ++ log_dir).

(* ===================================================================== *)
(** ** Rendering a record through a format string *)
(* ===================================================================== *)

(** The part of loguru's format mini-language that tag-free formats such
    as [file_format] use: literal text, [{{] and [}}], and replacement
    fields [{name}] or [{name:spec}].  [None] stands for an exception
    ([KeyError] for a missing [extra] key, [ValueError] for a malformed
    format) and for anything outside this part. *)
Module Fmt.

Inductive piece :=
| Lit (text : string)
| Field (name spec : string).

Inductive pstate :=
| PLit (text : string)
| PName (name : string)
| PIndex (name : string)
| PSpec (name spec : string).

Definition snoc (s : string) (c : ascii) : string :=
  s ++ String c EmptyString.

Definition flush (text : string) (out : list piece) : list piece :=
  if PyStr.truthy text then (out ++ [Lit text])%list else out.

(** [string.Formatter().parse]. *)
Fixpoint parse_go (s : string) (st : pstate) (out : list piece)
  : option (list piece) :=
  match s with
  | EmptyString =>
      match st with
      | PLit text => Some (flush text out)
      | _ => None
      end
  | String c r =>
      match st with
      | PLit text =>
          if Ascii.eqb c "{" then
            match r with
            | String c2 r' =>
                if Ascii.eqb c2 "{" then parse_go r' (PLit (snoc text "{")) out
                else parse_go r (PName "") (flush text out)
            | EmptyString => None
            end
          else if Ascii.eqb c "}" then
            match r with
            | String c2 r' =>
                if Ascii.eqb c2 "}" then parse_go r' (PLit (snoc text "}")) out
                else None
            | EmptyString => None
            end
          else parse_go r (PLit (snoc text c)) out
      | PName name =>
          if Ascii.eqb c "}" then parse_go r (PLit "") (out ++ [Field name ""])
          else if Ascii.eqb c ":" then parse_go r (PSpec name "") out
          else if Ascii.eqb c "[" then parse_go r (PIndex (snoc name c)) out
          else if Ascii.eqb c "{" || Ascii.eqb c "!" then None
          else parse_go r (PName (snoc name c)) out
      | PIndex name =>
          if Ascii.eqb c "]" then parse_go r (PName (snoc name c)) out
          else parse_go r (PIndex (snoc name c)) out
      | PSpec name spec =>
          if Ascii.eqb c "}" then parse_go r (PLit "") (out ++ [Field name spec])
          else if Ascii.eqb c "{" then None
          else parse_go r (PSpec name (snoc spec c)) out
      end
  end.

Definition parse (format : string) : option (list piece) :=
  parse_go format (PLit "") [].

(** *** Format specifications of strings: [[fill]align][width][.precision] *)

Record StrSpec := {
  fill : ascii;
  align : ascii;
  width : nat;
  precision : option nat
}.

Definition is_align (c : ascii) : bool :=
  Ascii.eqb c "<" || Ascii.eqb c ">" || Ascii.eqb c "^".

Definition digit_value (c : ascii) : option nat :=
  let n := N_of_ascii c in
  if ((48 <=? n) && (n <=? 57))%N then Some (N.to_nat (n - 48)) else None.

(** Leading decimal digits, their value, and what follows. *)
Fixpoint read_digits (s : string) (acc : option nat) : option nat * string :=
  match s with
  | EmptyString => (acc, s)
  | String c r =>
      match digit_value c with
      | Some d => read_digits r (Some (10 * default O acc + d)%nat)
      | None => (acc, s)
      end
  end.

Definition parse_spec (spec : string) : option StrSpec :=
  let '(f, a, rest) :=
    match spec with
    | String c1 (String c2 r) =>
        if is_align c2 then (c1, c2, r)
        else if is_align c1 then (" "%char, c1, String c2 r)
        else (" "%char, "<"%char, spec)
    | String c1 EmptyString =>
        if is_align c1 then (" "%char, c1, EmptyString)
        else (" "%char, "<"%char, spec)
    | EmptyString => (" "%char, "<"%char, spec)
    end in
  if PyStr.startswith "0" rest || PyStr.startswith "=" rest then None
  else
    let '(w, rest) := read_digits rest None in
    let '(p, rest) :=
      match rest with
      | String "." r =>
          match read_digits r None with
          | (Some p, r') => (Some (Some p), r')
          | (None, _) => (None, r)
          end
      | _ => (Some None, rest)
      end in
    match p with
    | None => None
    | Some p =>
        if String.eqb rest "" || String.eqb rest "s"
        then Some {| fill := f; align := a; width := default O w;
                     precision := p |}
        else None
    end.

(** [format(s, spec)] for a string [s]. *)
Definition format_str (spec s : string) : option string :=
  sp ← parse_spec spec;
  let s := match precision sp with
           | Some p => PyStr.take p s
           | None => s
           end in
  Some (if Ascii.eqb (align sp) ">" then PyStr.rjust (width sp) (fill sp) s
        else if Ascii.eqb (align sp) "^" then PyStr.center (width sp) (fill sp) s
        else PyStr.ljust (width sp) (fill sp) s).

(** *** Timestamps *)

(** A non-negative number in at least [w] digits, zeros in front. *)
Definition zfill (w : nat) (z : Z) : string :=
  PyStr.rjust w "0" (pretty z).

(** Letters that start a token of loguru's date pattern language. *)
Definition is_token_char (c : ascii) : bool :=
  existsb (Ascii.eqb c)
    (list_ascii_of_string "YMDQdEHhmsSZzAXxW[").

(** The tokens rendered here: [YYYY MM DD HH mm ss]. *)
Definition render_token (c : ascii) (n : nat) (t : DateTime) : option string :=
  if Ascii.eqb c "Y" && Nat.eqb n 4 then Some (zfill 4 (year t))
  else if Ascii.eqb c "M" && Nat.eqb n 2 then Some (zfill 2 (month t))
  else if Ascii.eqb c "D" && Nat.eqb n 2 then Some (zfill 2 (day t))
  else if Ascii.eqb c "H" && Nat.eqb n 2 then Some (zfill 2 (hour t))
  else if Ascii.eqb c "m" && Nat.eqb n 2 then Some (zfill 2 (minute t))
  else if Ascii.eqb c "s" && Nat.eqb n 2 then Some (zfill 2 (second t))
  else None.

Definition flush_run (run : option (ascii * nat)) (t : DateTime)
  : option string :=
  match run with
  | None => Some ""
  | Some (c, n) => render_token c n t
  end.

(** One pass over the pattern; [run] is the token letter being read and
    how often it has repeated. *)
Fixpoint format_time_go (pat : string) (run : option (ascii * nat))
    (t : DateTime) : option string :=
  match pat with
  | EmptyString => flush_run run t
  | String c r =>
      match run with
      | Some (c', n) =>
          if Ascii.eqb c c' then format_time_go r (Some (c', S n)) t
          else
            done ← flush_run run t;
            if is_token_char c then
              rest ← format_time_go r (Some (c, 1%nat)) t;
              Some (done ++ rest)
            else
              rest ← format_time_go r None t;
              Some (done ++ String c rest)
      | None =>
          if is_token_char c then format_time_go r (Some (c, 1%nat)) t
          else
            rest ← format_time_go r None t;
            Some (String c rest)
      end
  end.

Definition format_time (pat : string) (t : DateTime) : option string :=
  format_time_go pat None t.

(** *** Fields *)

(** The key of a field name [extra[key]]. *)
Fixpoint until_bracket (s : string) : option string :=
  match s with
  | EmptyString => None
  | String c r =>
      if Ascii.eqb c "]" then
        match r with EmptyString => Some "" | _ => None end
      else String c <$> until_bracket r
  end.

Definition extra_key (name : string) : option string :=
  match name with
  | String "e" (String "x" (String "t" (String "r" (String "a"
      (String "[" r))))) => until_bracket r
  | _ => None
  end.

Definition format_field (name spec : string) (record : LogRecord)
  : option string :=
  if String.eqb name "time" then format_time spec (r_time record)
  else if String.eqb name "level" then
    format_str spec (level_name (r_level record))
  else if String.eqb name "message" then format_str spec (r_message record)
  else if String.eqb name "name" then format_str spec (r_name record)
  else if String.eqb name "function" then format_str spec (r_function record)
  else if String.eqb name "line" then
    if String.eqb spec "" then Some (pretty (r_line record)) else None
  else
    key ← extra_key name;
    v ← r_extra record !! key;
    match v with
    | PyStr s => format_str spec s
    | _ => if String.eqb spec "" then Some (py_str v) else None
    end.

Fixpoint render (ps : list piece) (record : LogRecord) : option string :=
  match ps with
  | [] => Some ""
  | Lit text :: rest => (fun s => text ++ s) <$> render rest record
  | Field name spec :: rest =>
      s ← format_field name spec record;
      (fun s' => s ++ s') <$> render rest record
  end.

Definition format_record (format : string) (record : LogRecord)
  : option string :=
  ps ← parse format;
  render ps record.

End Fmt.

(* ===================================================================== *)
(** ** Calls, histories and logical tasks *)
(* ===================================================================== *)

(** One call into the module (or, for [CallLog], into the logger). *)
Inductive Call :=
| CallSetup (args : SetupArgs)
| CallRegister (name : string) (filter_key : option string) (level : string)
    (sink_format : option string)
| CallSetContext (context : ctx_arg)
| CallGetContext
| CallSetTrace (trace_id : string)
| CallGetTrace
| CallLog (site : CallSite) (bound : gmap string pyval) (lvl : Level)
    (message : string).

Definition call_run {host : Host} (c : Call) : M unit :=
  match c with
  | CallSetup args => setup_logging args
  | CallRegister name filter_key level sink_format =>
      register_log_sink name filter_key level sink_format
  | CallSetContext context => set_service_context context
  | CallGetContext => get_service_context ;; mret tt
  | CallSetTrace trace_id => set_trace_id trace_id
  | CallGetTrace => get_trace_id ;; mret tt
  | CallLog site bound lvl message => logger_log site bound lvl message
  end.

(** A history of calls made one after the other; a call that raises
    leaves its state behind and the history goes on. *)
Definition run_calls {host : Host} (h : list Call) (st : State) : State :=
  fold_left (fun st c => exec (call_run c) st) h st.

(** The handlers installed, without their identifiers. *)
Definition sinks (st : State) : list Handler :=
  map snd (handlers (st_core st)).

Definition is_file_sink (h : Handler) : bool :=
  match h_target h with
  | File _ => true
  | Console => false
  end.

Definition file_sinks (st : State) : list Handler :=
  filter (fun h => is_file_sink h = true) (sinks st).

Inductive Tier := InfoTier | ErrorTier.

(** The context and tier a per-context file sink serves, read off the
    filter it was installed with. *)
Definition sink_route (h : Handler) : option (string * Tier) :=
  match h_filter h with
  | Some (InfoFilter c) => Some (c, InfoTier)
  | Some (ErrorFilter c) => Some (c, ErrorTier)
  | _ => None
  end.



(** Logical tasks.  Every task (thread or asyncio task) runs in an
    execution context of its own; the rest of the state is shared by the
    whole process.  The functions of the module never await, so a call
    runs to its end before another task is scheduled. *)
Record World := {
  w_state : State;
  w_contexts : gmap nat Context
}.

(** The context of task [t]; a task that has no context yet starts from
    the empty one. *)
Definition task_context (w : World) (t : nat) : Context :=
  default empty_context (w_contexts w !! t).

(** Task [t] runs [m]: the interpreter switches to the task's context,
    runs the code, and keeps the context for the task. *)
Definition in_task {A} (t : nat) (m : M A) (w : World) : outcome A * World :=
  let '(o, st) := m (set_context (fun _ => task_context w t) (w_state w)) in
  (o, {| w_state := st; w_contexts := <[t := st_context st]> (w_contexts w) |}).

(** [asyncio.create_task]: the child gets a copy of the parent's context.
    A task that already has a context is not created again. *)
Definition spawn (parent child : nat) (w : World) : World :=
  match w_contexts w !! child with
  | Some _ => w
  | None =>
      {| w_state := w_state w;
         w_contexts := <[child := task_context w parent]> (w_contexts w) |}
  end.

Inductive Event :=
| Run (t : nat) (c : Call)
| Spawn (parent child : nat).

Definition step {host : Host} (w : World) (e : Event) : World :=
  match e with
  | Run t c => snd (in_task t (call_run c) w)
  | Spawn parent child => spawn parent child w
  end.

(** An interleaving of the tasks' calls, in the order the scheduler
    happened to run them. *)
Definition run_events {host : Host} (es : list Event) (w : World) : World :=
  fold_left step es w.

(** Calls that assign a context variable of the caller. *)
Definition assigns_context (c : Call) : bool :=
  match c with
  | CallSetup _ | CallSetContext _ | CallSetTrace _ => true
  | _ => false
  end.

(* ===================================================================== *)
(** ** Decorators and class loggers *)
(* ===================================================================== *)

(** [try: body  except Exception as exc: handler(exc)]: an exception
    outside [Exception] passes through. *)
Definition try_except {A} (body : M A) (handler : exn -> M A) : M A :=
  fun st =>
    match body st with
    | (Ok a, st') => (Ok a, st')
    | (Raise exc, st') =>
        if is_exception exc then handler exc st' else (Raise exc, st')
    end.

(** [type(exc).__name__] and [str(exc)]. *)
Definition exn_type_name (exc : exn) : string :=
  match exc with
  | RuntimeError _ => "RuntimeError"
  | ValueError _ => "ValueError"
  | OtherException class_name _ => class_name
  | BaseException class_name _ => class_name
  end.

Definition exn_str (exc : exn) : string :=
  match exc with
  | RuntimeError msg => msg
  | ValueError msg => msg
  | OtherException _ text => text
  | BaseException _ text => text
  end.

(** The wrappers the two decorators return, applied to their arguments.
    The decorated coroutine, already applied to [*args, **kwargs], is the
    computation [func]; [func_module] and [func_name] are its [__module__]
    and [__name__].  Seconds are floating-point numbers in the source; they
    are kept abstract here, with the three operations the wrapper uses and
    the two readings of [time.time()] it makes: [start_time] before the
    call and [end_time] after it. *)
Section Decorators.

Variable F : Type.
(** [a - b], [a > b], [f"{a:.3f}"] and [f"{a}"] *)
Variable fsub : F -> F -> F.
Variable fgt : F -> F -> bool.
Variable format_3f : F -> string.
Variable float_str : F -> string.

Definition log_performance {A} (threshold : F) (func_module func_name : string)
    (func : M A) (start_time end_time : F) : M A :=
  try_except
    (result ← func;
     let duration := fsub end_time start_time in
     (if fgt duration threshold then
        logger_log {| cs_name := module_name; cs_function := "wrapper";
                      cs_line := 351 |} ∅ WARNING
          ("性能警告: " ++ func_module ++ "." ++ func_name ++ " 执行耗时 " ++
           format_3f duration ++ "s " ++
           "(阈值: " ++ float_str threshold ++ "s)")
      else
        logger_log {| cs_name := module_name; cs_function := "wrapper";
                      cs_line := 356 |} ∅ DEBUG
          ("性能: " ++ func_module ++ "." ++ func_name ++ " 执行耗时 " ++
           format_3f duration ++ "s"));;
     mret result)
    (fun exc =>
       let duration := fsub end_time start_time in
       logger_log {| cs_name := module_name; cs_function := "wrapper";
                     cs_line := 363 |} ∅ ERROR
         ("执行失败: " ++ func_module ++ "." ++ func_name ++ " | " ++
          "耗时: " ++ format_3f duration ++ "s | " ++
          "异常: " ++ exn_type_name exc ++ ": " ++ exn_str exc);;
       raise exc).

End Decorators.

(** [log_exceptions]: [args_repr] and [kwargs_repr] are what [f"{args}"]
    and [f"{kwargs}"] give for the call's arguments.  [logger.exception]
    logs at level ERROR. *)
Definition log_exceptions {A} (func_module func_name : string)
    (args_repr kwargs_repr : string) (func : M A) : M A :=
  try_except func
    (fun exc =>
       logger_log {| cs_name := module_name; cs_function := "wrapper";
                     cs_line := 390 |} ∅ ERROR
         ("异常捕获: " ++ func_module ++ "." ++ func_name ++ " | " ++
          "参数: args=" ++ args_repr ++ ", kwargs=" ++ kwargs_repr ++ " | " ++
          "异常: " ++ exn_type_name exc ++ ": " ++ exn_str exc);;
       raise exc).

(** What [get_class_logger] looks at in its argument: whether it is a class
    and, for a class, its [__name__] and [__module__], for any other object
    those of its [__class__]. *)
Inductive PyObject :=
| ClassObject (name module : string)
| InstanceOf (class_name class_module : string).

(** [logger.bind(name=...)]: the bound logger, given by the [extra] it
    carries into every record (the module's [logger] has none of its
    own). *)
Definition get_class_logger (obj : PyObject) : gmap string pyval :=
  let '(class_name, module) :=
    match obj with
    | ClassObject name module => (name, module)
    | InstanceOf class_name class_module => (class_name, class_module)
    end in
  {[ "name" := PyStr (module ++ "." ++ class_name) ]}.

(* ===================================================================== *)
(** ** Vocabulary of the properties *)
(* ===================================================================== *)

(** What [get_service_context()] and [_trace_id_var.get()] would return. *)
Definition current_service_context (st : State) : ServiceContext :=
  cv_get _service_context_default (_service_context (st_context st)).
Definition current_trace_id (st : State) : string :=
  cv_get _trace_id_var_default (_trace_id_var (st_context st)).

(** The identifier the next [uuid.uuid4()] call yields. *)
Definition fresh_trace_id (st : State) : string :=
  Uuid.uuid_str (Uuid.uuid4_int (st_urandom st (st_drawn st))).

(** A record with the two stamped keys written into its [extra]. *)
Definition stamp (record : LogRecord) (trace_id : string)
    (service : ServiceContext) : LogRecord :=
  with_extra record
    (<["service" := PyStr (value service)]>
       (<["trace_id" := PyStr trace_id]> (r_extra record))).

(** [extra[key]] is present and true in the Python sense. *)
Definition extra_truthy (record : LogRecord) (key : string) : Prop :=
  exists v, r_extra record !! key = Some v /\ truthy v = true.

(** The local variable [rotation] of [setup_logging]. *)
Definition setup_rotation (args : SetupArgs) : string :=
  if enable_file_rotation args then rotation_time args else rotation_size args.


(** The two handlers one turn of the loop adds for [ctx]. *)
Definition context_sinks (log_dir rotation log_level : string)
    (retention_days : Z) (enable_file_rotation : bool) (l : Level)
    (ctx : string) : list Handler :=
  [make_handler
     (if enable_file_rotation
      then info_args_dated log_dir rotation log_level retention_days ctx
      else info_args_plain log_dir rotation log_level retention_days ctx) l;
   make_handler
     (if enable_file_rotation
      then error_args_dated log_dir rotation retention_days ctx
      else error_args_plain log_dir rotation retention_days ctx) ERROR].


(** The handler a [register_log_sink] call adds under configuration
    [cfg]. *)
Definition custom_sink (cfg : LogConfig) (name : string)
    (filter_key : option string) (sink_format : option string) (l : Level)
  : Handler :=
  make_handler
    (custom_args (cfg_log_dir cfg) (cfg_rotation cfg) (cfg_retention_days cfg)
       name (level_name l)
       (or_str sink_format
          "{time:YYYY-MM-DD HH:mm:ss} | {extra[trace_id]} | {message}")
       (match filter_key with
        | Some key => if PyStr.truthy key then Some (KeyFilter key) else None
        | None => None
        end)) l.


(** The same line with the level name left-aligned and padded on the
    right, as [{level: <8}] asks. *)
Definition file_line (record : LogRecord) (trace_id : string) : string :=
  Fmt.zfill 4 (year (r_time record)) ++ "-" ++
  Fmt.zfill 2 (month (r_time record)) ++ "-" ++
  Fmt.zfill 2 (day (r_time record)) ++ " " ++
  Fmt.zfill 2 (hour (r_time record)) ++ ":" ++
  Fmt.zfill 2 (minute (r_time record)) ++ ":" ++
  Fmt.zfill 2 (second (r_time record)) ++ " | " ++
  PyStr.ljust 8 " " (level_name (r_level record)) ++ " | " ++
  r_name record ++ ":" ++ r_function record ++ ":" ++
  pretty (r_line record) ++ " | " ++
  trace_id ++ " - " ++ r_message record.

(** Concrete values for the examples. *)
Definition sample_time : DateTime :=
  {| year := 2024; month := 1; day := 2; hour := 3; minute := 4; second := 5 |}.

Definition sample_state : State :=
  initial_state (fun n => 1311768467463790320 * Z.of_nat (S n)) sample_time.

Definition sample_record : LogRecord :=
  {| r_time := sample_time; r_level := INFO; r_message := "ready";
     r_name := "app.main"; r_function := "start"; r_line := 42;
     r_extra := {[ "trace_id" := PyStr "abc" ]} |}.



(** What an event of an interleaving may do for task [t] to keep the
    values [t] assigned: a call made by [t] itself assigns no context
    variable. *)
Definition keeps_assignment (t : nat) (e : Event) : Prop :=
  match e with
  | Run t' call => t' = t -> assigns_context call = false
  | Spawn _ _ => True
  end.

Definition sample_world : World :=
  {| w_state := sample_state; w_contexts := ∅ |}.

Definition sample_prelude : list Event :=
  [Run 2 (CallSetTrace "early-b");
   Run 1 CallGetContext].

Definition sample_interleaving : list Event :=
  [Run 2 (CallSetContext (CtxStr "worker"));
   Run 2 (CallSetTrace "trace-b");
   Run 1 CallGetTrace;
   Spawn 2 3;
   Run 3 (CallSetTrace "");
   Run 3 CallGetTrace;
   Run 2 (CallSetup default_setup);
   Run 1 (CallLog {| cs_name := "jobs"; cs_function := "run"; cs_line := 7 |}
            ∅ WARNING "tick")].

(** ** Vocabulary of the further properties *)

(** The record a logging call builds before it is patched. *)
Definition built_record (site : CallSite) (bound : gmap string pyval)
    (lvl : Level) (message : string) (st : State) : LogRecord :=
  {| r_time := st_now st; r_level := lvl; r_message := message;
     r_name := cs_name site; r_function := cs_function site;
     r_line := cs_line site; r_extra := bound |}.

(** The state after [logger.add] has appended handler [h], and after it
    has appended a list of handlers in turn. *)
Definition install (h : Handler) (st : State) : State :=
  set_core (fun c =>
    {| handlers := (handlers c ++ [(handlers_count c, h)])%list;
       handlers_count := S (handlers_count c);
       patcher := patcher c |}) st.

Definition install_all (hs : list Handler) (st : State) : State :=
  fold_left (fun st h => install h st) hs st.

(** The state after a [logger.add] that raised: only the identifier is
    used up. *)
Definition skip_id (st : State) : State :=
  set_core (fun c =>
    {| handlers := handlers c; handlers_count := S (handlers_count c);
       patcher := patcher c |}) st.

(** loguru's error for an unknown level name. *)
Definition unknown_level (name : string) : exn :=
  ValueError ("Level '" ++ name ++ "' does not exist").


Definition setup_site : CallSite :=
  {| cs_name := module_name; cs_function := "setup_logging"; cs_line := 325 |}.

(** The message [register_log_sink] logs about the sink it added. *)
Definition registration_message (name : string) (filter_key : option string)
  : string :=
  "注册日志 sink: " ++ name ++ " (filter_key=" ++
  format_opt_str filter_key ++ ")".

(** The message [log_exceptions] logs. *)
Definition exception_message (func_module func_name args_repr kwargs_repr
    : string) (exc : exn) : string :=
  "异常捕获: " ++ func_module ++ "." ++ func_name ++ " | " ++
  "参数: args=" ++ args_repr ++ ", kwargs=" ++ kwargs_repr ++ " | " ++
  "异常: " ++ exn_type_name exc ++ ": " ++ exn_str exc.

(** The level [log_performance] logs at, from how the call ended and
    whether it took longer than the threshold. *)
Definition performance_level {A} (slow : bool) (o : outcome A) : Level :=
  match o with
  | Ok _ => if slow then WARNING else DEBUG
  | Raise _ => ERROR
  end.

(** The object [get_class_logger] is given: a class, or an instance of
    it. *)
Definition class_or_instance (is_class : bool) (name module : string)
  : PyObject :=
  if is_class then ClassObject name module else InstanceOf name module.

#[global] Instance pyval_eq_dec : EqDecision pyval.
Proof. solve_decision. Defined.

(** The handlers of a list that accept a record. *)
Definition accepting (record : LogRecord) (hs : list Handler) : list Handler :=
  filter (fun h => handler_accepts h record = true) hs.

(** A history without a [setup_logging] call is one where no call is a
    set-up. *)
Definition is_setup (c : Call) : bool :=
  match c with CallSetup _ => true | _ => false end.

(** A string of white space only. *)
Fixpoint blank (s : string) : bool :=
  match s with
  | EmptyString => true
  | String c r => PyStr.isspace c && blank r
  end.

(** The default format of [register_log_sink] and the line it gives. *)
Definition default_format : string :=
  "{time:YYYY-MM-DD HH:mm:ss} | " ++
  "{extra[trace_id]} | " ++
  "{message}".





Definition sample_ready {host : Host} : State :=
  exec (setup_logging default_setup) sample_state.


(** ** What [logger.add] accepts *)

(** The exception [logger.add] raises on its arguments, if any: in
    loguru's order, from building the sink, from resolving the level name,
    from preparing the format. *)
Definition add_error {host : Host} (a : AddArgs) : option exn :=
  match sink_error a with
  | Some e => Some e
  | None =>
      match level_of_name (a_level a) with
      | None => Some (unknown_level (a_level a))
      | Some _ => format_error (a_format a)
      end
  end.





(** The arguments of the [logger.add] call of [register_log_sink] under
    configuration [cfg]. *)
Definition register_args (cfg : LogConfig) (name : string)
    (filter_key : option string) (level : string)
    (sink_format : option string) : AddArgs :=
  custom_args (cfg_log_dir cfg) (cfg_rotation cfg) (cfg_retention_days cfg)
    name level (or_str sink_format default_format)
    (match filter_key with
     | Some key => if PyStr.truthy key then Some (KeyFilter key) else None
     | None => None
     end).




(** The file a per-context sink writes to, as [setup_logging] names it. *)
Definition context_file (args : SetupArgs) (c : string) (tier : Tier)
  : string :=
  path_join (or_str (log_dir args) "logs")
    (c ++ match tier with InfoTier => "_info" | ErrorTier => "_error" end
       ++ (if enable_file_rotation args then "_{time:YYYY-MM-DD}.log"
           else ".log")).

(** ** The logging call of a decorator *)

Definition wrapper_site (line : Z) : CallSite :=
  {| cs_name := module_name; cs_function := "wrapper"; cs_line := line |}.

Section PerformanceLine.

Variable F : Type.
Variable fsub : F -> F -> F.
Variable fgt : F -> F -> bool.
Variable format_3f : F -> string.
Variable float_str : F -> string.

(** The logging call a [log_performance] wrapper makes for an outcome of
    the wrapped function: the line of the call in the module, its level
    and its message; there is none for an exception outside
    [Exception]. *)
Definition performance_line {A} (threshold : F)
    (func_module func_name : string) (start_time end_time : F)
    (o : outcome A) : option (CallSite * Level * string) :=
  let duration := fsub end_time start_time in
  match o with
  | Ok _ =>
      if fgt duration threshold
      then Some (wrapper_site 351, WARNING,
                 "性能警告: " ++ func_module ++ "." ++ func_name ++
                 " 执行耗时 " ++ format_3f duration ++ "s " ++
                 "(阈值: " ++ float_str threshold ++ "s)")
      else Some (wrapper_site 356, DEBUG,
                 "性能: " ++ func_module ++ "." ++ func_name ++
                 " 执行耗时 " ++ format_3f duration ++ "s")
  | Raise exc =>
      if is_exception exc
      then Some (wrapper_site 363, ERROR,
                 "执行失败: " ++ func_module ++ "." ++ func_name ++ " | " ++
                 "耗时: " ++ format_3f duration ++ "s | " ++
                 "异常: " ++ exn_type_name exc ++ ": " ++ exn_str exc)
      else None
  end.

End PerformanceLine.

(** The logging call a [log_exceptions] wrapper makes. *)
Definition exception_line {A} (func_module func_name args_repr kwargs_repr
    : string) (o : outcome A) : option (CallSite * Level * string) :=
  match o with
  | Ok _ => None
  | Raise exc =>
      if is_exception exc
      then Some (wrapper_site 390, ERROR,
                 exception_message func_module func_name args_repr
                   kwargs_repr exc)
      else None
  end.

(** The state after that logging call, if there is one. *)
Definition after_line (line : option (CallSite * Level * string))
    (st : State) : State :=
  match line with
  | Some (site, lvl, message) => exec (logger_log site ∅ lvl message) st
  | None => st
  end.

(** A function that is cancelled: [asyncio.CancelledError] is outside
    [Exception]. *)
Definition cancelled : M unit :=
  raise (BaseException "CancelledError" "").

(** A function that fails with a [ValueError]. *)
Definition failing : M unit := raise (ValueError "bad input").

(** ** The text of a version-4 UUID *)

Definition is_hex_char (c : ascii) : bool :=
  existsb (Ascii.eqb c) (list_ascii_of_string "0123456789abcdef").

Fixpoint all_hex (s : string) : bool :=
  match s with
  | EmptyString => true
  | String c r => is_hex_char c && all_hex r
  end.

Definition char_at (n : nat) (s : string) (c : ascii) : bool :=
  match String.get n s with
  | Some c' => Ascii.eqb c' c
  | None => false
  end.

(** The canonical text of a version-4 UUID of RFC 4122:
    [xxxxxxxx-xxxx-4xxx-yxxx-xxxxxxxxxxxx], 36 characters, where each [x]
    is a lower-case hexadecimal digit and [y] is one of 8, 9, a, b. *)
Definition is_uuid4 (s : string) : bool :=
  (String.length s =? 36)%nat
  && all_hex (substring 0 8 s) && char_at 8 s "-"
  && all_hex (substring 9 4 s) && char_at 13 s "-"
  && char_at 14 s "4" && all_hex (substring 15 3 s) && char_at 18 s "-"
  && existsb (char_at 19 s) (list_ascii_of_string "89ab")
  && all_hex (substring 20 3 s) && char_at 23 s "-"
  && all_hex (substring 24 12 s).

(** The bits of the sixteen random bytes that reach the identifier: all
    128 but the two of the variant and the four of the version. *)
Definition uuid4_free_bit (n : Z) : bool :=
  (0 <=? n) && (n <? 128)
  && negb (existsb (Z.eqb n) [62; 63; 76; 77; 78; 79]).

(** A host for the examples: it leaves strings that are not ASCII as they
    are, knows no level besides the built-in ones, and accepts the options
    the signatures have as defaults and no other rotation or retention. *)
#[global] Instance sample_host : Host := {|
  unicode_lower := fun s => s;
  unicode_upper := fun s => s;
  unicode_strip := fun s => s;
  custom_level := fun _ => None;
  rotation_error := fun s =>
    if String.eqb s "00:00" || String.eqb s "100 MB" then None
    else Some (ValueError ("Cannot parse rotation from: '" ++ s ++ "'"));
  retention_error := fun s =>
    if String.eqb s "7 days" then None
    else Some (ValueError ("Cannot parse retention from: '" ++ s ++ "'"));
  format_error := fun _ => None
|}.

(* ===================================================================== *)
(** * Properties *)
(* ===================================================================== *)

(** ** Strings and identifiers *)

Lemma string_length_app (s1 s2 : string) :
  String.length (s1 ++ s2) = (String.length s1 + String.length s2)%nat.
Proof.
  induction s1 as [|c s1 IH]; [reflexivity|].
  change (String c s1 ++ s2) with (String c (s1 ++ s2)).
  simpl. now rewrite IH.
Qed.

Lemma length_replicate n c : String.length (PyStr.replicate n c) = n.
Proof. induction n; simpl; congruence. Qed.

Lemma length_hex_fixed w v : String.length (Uuid.hex_fixed w v) = w.
Proof.
  revert v. induction w as [|w IH]; intros v; simpl; [reflexivity|].
  rewrite string_length_app, IH. simpl. lia.
Qed.

Lemma length_substring n m s :
  (n + m <= String.length s)%nat -> String.length (substring n m s) = m.
Proof.
  revert n m. induction s as [|c s IH]; intros n m H; simpl in *.
  - destruct n, m; simpl; try reflexivity; lia.
  - destruct n as [|n].
    + destruct m as [|m]; simpl; [reflexivity|]. f_equal. apply (IH 0%nat). lia.
    + apply IH. lia.
Qed.

(** The integer of a version-4 UUID fits 128 bits, so its ['%032x'] has
    exactly the 32 digits [hex_fixed 32] gives. *)
Lemma uuid4_int_range rnd : 0 <= Uuid.uuid4_int rnd < 2 ^ 128.
Proof.
  assert (Uuid.uuid4_int rnd mod 2 ^ 128 = Uuid.uuid4_int rnd) as <-;
    [|apply Z.mod_pos_bound; lia].
  apply Z.bits_inj'. intros n Hn.
  destruct (Z_lt_le_dec n 128) as [Hlt|Hge].
  - now rewrite Z.mod_pow2_bits_low by lia.
  - rewrite Z.mod_pow2_bits_high by lia.
    unfold Uuid.uuid4_int. cbv zeta.
    rewrite Z.lor_spec, Z.land_spec, Z.lor_spec, Z.land_spec.
    rewrite Z.mod_pow2_bits_high by lia.
    assert (Z.log2 (Z.shiftl 0x8000 48) = 63) as L1 by (vm_compute; reflexivity).
    assert (Z.log2 (Z.shiftl 4 76) = 78) as L2 by (vm_compute; reflexivity).
    rewrite (Z.bits_above_log2 (Z.shiftl 0x8000 48));
      [|vm_compute; discriminate | lia].
    rewrite (Z.bits_above_log2 (Z.shiftl 4 76));
      [|vm_compute; discriminate | lia].
    reflexivity.
Qed.

Lemma length_uuid_str i : String.length (Uuid.uuid_str i) = 36%nat.
Proof.
  unfold Uuid.uuid_str.
  repeat rewrite string_length_app.
  repeat rewrite length_substring by (rewrite length_hex_fixed; lia).
  reflexivity.
Qed.

Lemma truthy_length s : PyStr.truthy s = true <-> String.length s <> O.
Proof. destruct s; simpl; split; intros; congruence || lia. Qed.

Lemma truthy_uuid_str i : PyStr.truthy (Uuid.uuid_str i) = true.
Proof. apply truthy_length. rewrite length_uuid_str. lia. Qed.

Lemma truthy_nonempty s : s <> "" -> PyStr.truthy s = true.
Proof. destruct s; [congruence | reflexivity]. Qed.

(** ** The integer and the text of a version-4 UUID *)

Lemma is_hex_char_hex_digit n : is_hex_char (Uuid.hex_digit n) = true.
Proof.
  destruct n as [|p|p]; try reflexivity.
  do 4 (try destruct p as [p|p|]; try reflexivity).
Qed.

Lemma all_hex_app s t : all_hex (s ++ t) = all_hex s && all_hex t.
Proof.
  induction s as [|c s IH]; [reflexivity|].
  change (String c s ++ t) with (String c (s ++ t)).
  cbn [all_hex]. now rewrite IH, andb_assoc.
Qed.

Lemma all_hex_hex_fixed w v : all_hex (Uuid.hex_fixed w v) = true.
Proof.
  revert v. induction w as [|w IH]; intros v; [reflexivity|].
  cbn [Uuid.hex_fixed]. rewrite all_hex_app, IH. cbn [all_hex].
  now rewrite is_hex_char_hex_digit.
Qed.

(** The digit [j] places from the right is the [j]-th hexadecimal digit
    of the number. *)
Lemma get_hex_fixed w v j :
  (j < w)%nat ->
  String.get (w - 1 - j) (Uuid.hex_fixed w v)
  = Some (Uuid.hex_digit ((v / 16 ^ Z.of_nat j) mod 16)).
Proof.
  revert v j. induction w as [|w IH]; intros v j Hj; [lia|].
  cbn [Uuid.hex_fixed].
  destruct j as [|j].
  - replace (S w - 1 - 0)%nat with (0 + String.length (Uuid.hex_fixed w (v / 16)))%nat
      by (rewrite length_hex_fixed; lia).
    rewrite <- append_correct2. cbn [String.get].
    now rewrite Z.pow_0_r, Z.div_1_r.
  - replace (S w - 1 - S j)%nat with (w - 1 - j)%nat by lia.
    rewrite <- append_correct1 by (rewrite length_hex_fixed; lia).
    rewrite IH by lia. do 3 f_equal.
    rewrite Nat2Z.inj_succ, Z.pow_succ_r by lia.
    rewrite Z.div_div by lia. reflexivity.
Qed.

Lemma hex_digit_inj a b :
  0 <= a < 16 -> 0 <= b < 16 -> Uuid.hex_digit a = Uuid.hex_digit b -> a = b.
Proof.
  intros Ha Hb.
  assert (a = 0 \/ a = 1 \/ a = 2 \/ a = 3 \/ a = 4 \/ a = 5 \/ a = 6 \/ a = 7
          \/ a = 8 \/ a = 9 \/ a = 10 \/ a = 11 \/ a = 12 \/ a = 13 \/ a = 14
          \/ a = 15) as Ha' by lia.
  assert (b = 0 \/ b = 1 \/ b = 2 \/ b = 3 \/ b = 4 \/ b = 5 \/ b = 6 \/ b = 7
          \/ b = 8 \/ b = 9 \/ b = 10 \/ b = 11 \/ b = 12 \/ b = 13 \/ b = 14
          \/ b = 15) as Hb' by lia.
  clear Ha Hb.
  repeat (destruct Ha' as [->|Ha']); [..|subst a];
    (repeat (destruct Hb' as [->|Hb']); [..|subst b]);
    intros E; solve [reflexivity | discriminate E].
Qed.

Lemma string_app_inj_r s s' c c' :
  s ++ String c EmptyString = s' ++ String c' EmptyString -> s = s' /\ c = c'.
Proof.
  revert s'. induction s as [|a s IH]; intros [|a' s'] E.
  - injection E as ->. now split.
  - change (String a' s' ++ String c' "") with (String a' (s' ++ String c' "")) in E.
    cbn in E. destruct s'; discriminate.
  - change (String a s ++ String c "") with (String a (s ++ String c "")) in E.
    cbn in E. destruct s; discriminate.
  - change (String a s ++ String c "") with (String a (s ++ String c "")) in E.
    change (String a' s' ++ String c' "") with (String a' (s' ++ String c' "")) in E.
    injection E as -> E. destruct (IH _ E) as (-> & ->). now split.
Qed.

Lemma hex_fixed_inj w a b :
  0 <= a < 16 ^ Z.of_nat w -> 0 <= b < 16 ^ Z.of_nat w ->
  Uuid.hex_fixed w a = Uuid.hex_fixed w b -> a = b.
Proof.
  revert a b. induction w as [|w IH]; intros a b Ha Hb E.
  - cbn in Ha, Hb. lia.
  - cbn [Uuid.hex_fixed] in E. apply string_app_inj_r in E as (E1 & E2).
    rewrite Nat2Z.inj_succ, Z.pow_succ_r in Ha, Hb by lia.
    apply IH in E1; [| split; [apply Z.div_pos; lia | apply Z.div_lt_upper_bound; lia] ..].
    apply hex_digit_inj in E2; [| apply Z.mod_pos_bound; lia ..].
    rewrite (Z.div_mod a 16), (Z.div_mod b 16) by lia. congruence.
Qed.

Lemma testbit_above a k n :
  0 <= a < 2 ^ k -> k <= n -> Z.testbit a n = false.
Proof.
  intros Ha Hk. destruct (Z.eq_dec a 0) as [->|Hne]; [apply Z.bits_0|].
  apply Z.bits_above_log2; [lia|].
  assert (Z.log2 a < k); [|lia].
  apply Z.log2_lt_pow2; lia.
Qed.

(** The bits of the integer of a version-4 UUID: the version nibble is
    4, the variant bits are 1 and 0, every other bit below 128 is the
    random one. *)
Lemma uuid4_int_bits rnd n :
  0 <= n ->
  Z.testbit (Uuid.uuid4_int rnd) n
  = if existsb (Z.eqb n) [63; 78] then true
    else if existsb (Z.eqb n) [62; 76; 77; 79] then false
    else (n <? 128) && Z.testbit rnd n.
Proof.
  intros Hn. unfold Uuid.uuid4_int. cbv zeta.
  rewrite Z.lor_spec, Z.land_spec, Z.lor_spec, Z.land_spec.
  rewrite !Z.lnot_spec by lia.
  assert (Z.testbit (rnd mod 2 ^ 128) n = (n <? 128) && Z.testbit rnd n) as ->.
  { destruct (Z.ltb_spec n 128).
    - now rewrite Z.mod_pow2_bits_low by lia.
    - now rewrite Z.mod_pow2_bits_high by lia. }
  destruct (Z_lt_le_dec n 128) as [Hlt|Hge].
  - assert (exists k, n = Z.of_nat k /\ (k < 128)%nat) as (k & -> & Hk)
      by (exists (Z.to_nat n); lia).
    clear Hn Hlt.
    do 128 (destruct k as [|k]; [destruct (Z.testbit rnd _); reflexivity|]).
    lia.
  - rewrite !(testbit_above (Z.shiftl _ _) 128 n)
      by (try (vm_compute; split; [discriminate | reflexivity]); lia).
    cbn [existsb].
    repeat match goal with
           | |- context [n =? ?c] =>
               destruct (Z.eqb_spec n c); [lia|]
           end.
    cbn. destruct (n <? 128), (Z.testbit rnd n); reflexivity.
Qed.

(** Two draws give the same integer exactly when they agree on the bits
    that reach it. *)
Lemma uuid4_int_eq r1 r2 :
  Uuid.uuid4_int r1 = Uuid.uuid4_int r2
  <-> forall n, uuid4_free_bit n = true -> Z.testbit r1 n = Z.testbit r2 n.
Proof.
  split.
  - intros E n Hf. unfold uuid4_free_bit in Hf.
    apply andb_true_iff in Hf as (Hr & Hx).
    apply andb_true_iff in Hr as (H0 & H128).
    apply Z.leb_le in H0. apply negb_true_iff in Hx.
    pose proof (f_equal (fun i => Z.testbit i n) E) as Eb. cbv beta in Eb.
    rewrite !uuid4_int_bits in Eb by assumption.
    cbn [existsb] in Hx, Eb.
    repeat match type of Hx with
           | (_ || _) = false => apply orb_false_iff in Hx as (? & Hx)
           end.
    repeat match goal with
           | H : (n =? _) = false |- _ => rewrite H in Eb; clear H
           end.
    now rewrite H128 in Eb.
  - intros H. apply Z.bits_inj'. intros n Hn.
    rewrite !uuid4_int_bits by assumption.
    destruct (existsb (Z.eqb n) [63; 78]) eqn:E1; [reflexivity|].
    destruct (existsb (Z.eqb n) [62; 76; 77; 79]) eqn:E2; [reflexivity|].
    destruct (n <? 128) eqn:E3; [|reflexivity].
    cbn [andb]. apply H. unfold uuid4_free_bit. rewrite E3.
    apply Z.leb_le in Hn. rewrite Hn. cbn [andb existsb] in *.
    repeat match goal with
           | H : (_ || _) = false |- _ => apply orb_false_iff in H as (? & ?)
           end.
    repeat match goal with
           | H : (n =? _) = false |- _ => rewrite H; clear H
           end.
    reflexivity.
Qed.

(** The version digit and the variant digit. *)
Lemma uuid4_int_version rnd : (Uuid.uuid4_int rnd / 16 ^ 19) mod 16 = 4.
Proof.
  change (16 ^ 19) with (2 ^ 76). change 16 with (2 ^ 4).
  apply Z.bits_inj'. intros n Hn.
  destruct (Z_lt_le_dec n 4) as [Hlt|Hge].
  - rewrite Z.mod_pow2_bits_low by lia.
    rewrite Z.div_pow2_bits by lia.
    rewrite uuid4_int_bits by lia.
    assert (n = 0 \/ n = 1 \/ n = 2 \/ n = 3) as [-> | [-> | [-> | ->]]] by lia;
      reflexivity.
  - rewrite Z.mod_pow2_bits_high by lia.
    symmetry. apply (testbit_above 4 4); lia.
Qed.

Lemma uuid4_int_variant rnd :
  In ((Uuid.uuid4_int rnd / 16 ^ 15) mod 16) [8; 9; 10; 11].
Proof.
  assert (((Uuid.uuid4_int rnd / 16 ^ 15) mod 16) / 4 = 2) as H.
  { change (16 ^ 15) with (2 ^ 60). change 16 with (2 ^ 4).
    change 4 with (2 ^ 2) at 2.
    apply Z.bits_inj'. intros n Hn.
    rewrite Z.div_pow2_bits by lia.
    destruct (Z_lt_le_dec n 2) as [Hlt|Hge].
    - rewrite Z.mod_pow2_bits_low by lia.
      rewrite Z.div_pow2_bits by lia.
      rewrite uuid4_int_bits by lia.
      assert (n = 0 \/ n = 1) as [-> | ->] by lia; reflexivity.
    - rewrite Z.mod_pow2_bits_high by lia.
      symmetry. apply (testbit_above 2 2); lia. }
  pose proof (Z.mod_pos_bound (Uuid.uuid4_int rnd / 16 ^ 15) 16 ltac:(lia)).
  set (d := (Uuid.uuid4_int rnd / 16 ^ 15) mod 16) in *.
  assert (d = 8 \/ d = 9 \/ d = 10 \/ d = 11) as Hd.
  { pose proof (Z.div_mod d 4 ltac:(lia)).
    pose proof (Z.mod_pos_bound d 4 ltac:(lia)). lia. }
  cbn [In]. lia.
Qed.

(** The 32 digits read back from the text. *)
Lemma uuid_str_digits i :
  let s := Uuid.uuid_str i in
  (substring 0 8 s ++ substring 9 4 s ++ substring 14 4 s
   ++ substring 19 4 s ++ substring 24 12 s)%string
  = Uuid.hex_fixed 32 i.
Proof.
  unfold Uuid.uuid_str.
  generalize (length_hex_fixed 32 i). generalize (Uuid.hex_fixed 32 i) as h.
  intros h Hlen.
  do 32 (destruct h as [|? h]; [discriminate Hlen|]).
  destruct h; [|discriminate Hlen]. reflexivity.
Qed.

Lemma uuid_str_inj i j :
  0 <= i < 2 ^ 128 -> 0 <= j < 2 ^ 128 ->
  Uuid.uuid_str i = Uuid.uuid_str j -> i = j.
Proof.
  intros Hi Hj E. apply (hex_fixed_inj 32); [exact Hi | exact Hj |].
  rewrite <- (uuid_str_digits i), <- (uuid_str_digits j). cbv zeta.
  now rewrite E.
Qed.

Lemma uuid_str_uuid4 rnd :
  is_uuid4 (Uuid.uuid_str (Uuid.uuid4_int rnd)) = true.
Proof.
  pose proof (all_hex_hex_fixed 32 (Uuid.uuid4_int rnd)) as Hhex.
  pose proof (get_hex_fixed 32 (Uuid.uuid4_int rnd) 19 ltac:(lia)) as Hver.
  pose proof (get_hex_fixed 32 (Uuid.uuid4_int rnd) 15 ltac:(lia)) as Hvar.
  change (Z.of_nat 19) with 19 in Hver. change (Z.of_nat 15) with 15 in Hvar.
  rewrite uuid4_int_version in Hver.
  pose proof (uuid4_int_variant rnd) as Hin.
  set (d := (Uuid.uuid4_int rnd / 16 ^ 15) mod 16) in *.
  unfold Uuid.uuid_str.
  revert Hhex Hver Hvar.
  generalize (length_hex_fixed 32 (Uuid.uuid4_int rnd)).
  generalize (Uuid.hex_fixed 32 (Uuid.uuid4_int rnd)) as h.
  intros h Hlen.
  do 32 (destruct h as [|? h]; [discriminate Hlen|]).
  destruct h; [|discriminate Hlen].
  intros Hhex Hver Hvar.
  cbn in Hver, Hvar. injection Hver as ->. injection Hvar as ->.
  cbn [all_hex] in Hhex.
  repeat match type of Hhex with
         | (_ && _) = true => apply andb_true_iff in Hhex as (? & Hhex)
         end.
  cbn [In] in Hin.
  destruct Hin as [<-|[<-|[<-|[<-|[]]]]];
    lazy -[is_hex_char];
    repeat match goal with
           | H : is_hex_char _ = true |- _ => rewrite H; clear H
           end;
    reflexivity.
Qed.

(** ** Running computations *)

Lemma run_bind {A B} (m : M A) (f : A -> M B) (st : State) :
  (m ≫= f) st =
  match m st with
  | (Ok a, st') => f a st'
  | (Raise e, st') => (Raise e, st')
  end.
Proof. reflexivity. Qed.

Ltac run_monad :=
  cbv beta iota zeta delta
    [mbind M_bind mret M_ret gets modify raise exec
     get_trace_id uuid4 _trace_id_var_get _trace_id_var_set set_trace_id
     get_service_context set_service_context].


(** ** The context store *)

Lemma get_trace_id_set st :
  PyStr.truthy (current_trace_id st) = true ->
  get_trace_id st = (Ok (current_trace_id st), st).
Proof.
  intros H. run_monad. fold (current_trace_id st). now rewrite H.
Qed.

Lemma get_trace_id_unset st :
  PyStr.truthy (current_trace_id st) = false ->
  exists st',
    get_trace_id st = (Ok (fresh_trace_id st), st')
    /\ st_context st' = {| _service_context := _service_context (st_context st);
                           _trace_id_var := Some (fresh_trace_id st) |}
    /\ st_core st' = st_core st /\ st_config st' = st_config st
    /\ st_delivered st' = st_delivered st
    /\ st_drawn st' = S (st_drawn st) /\ st_urandom st' = st_urandom st.
Proof.
  intros H. run_monad. fold (current_trace_id st). rewrite H. cbn.
  eexists. split; [reflexivity|]. cbn. repeat split; reflexivity.
Qed.

Lemma get_trace_id_frame st :
  exists t st',
    get_trace_id st = (Ok t, st')
    /\ PyStr.truthy t = true
    /\ current_trace_id st' = t
    /\ _service_context (st_context st') = _service_context (st_context st)
    /\ st_core st' = st_core st /\ st_config st' = st_config st
    /\ st_delivered st' = st_delivered st
    /\ (PyStr.truthy (current_trace_id st) = true -> st' = st).
Proof.
  destruct (PyStr.truthy (current_trace_id st)) eqn:H.
  - exists (current_trace_id st), st. rewrite get_trace_id_set by assumption.
    repeat split; auto.
  - destruct (get_trace_id_unset st H) as (st' & Hr & Hc & Hcore & Hcfg & Hd & _).
    exists (fresh_trace_id st), st'. rewrite Hr.
    repeat split; auto using truthy_uuid_str.
    + unfold current_trace_id. now rewrite Hc.
    + now rewrite Hc.
    + discriminate.
Qed.

(** ** The logger *)

Lemma run_patcher_run record st :
  exists t st',
    get_trace_id st = (Ok t, st')
    /\ run_patcher StampPatcher record st
       = (Ok (stamp record t (current_service_context st)), st').
Proof.
  destruct (get_trace_id_frame st) as (t & st' & Hr & _ & _ & Hs & _).
  exists t, st'. split; [assumption|].
  unfold run_patcher. rewrite run_bind, Hr.
  unfold get_service_context, gets. cbv beta iota delta [mbind M_bind mret M_ret].
  unfold stamp, current_service_context. now rewrite Hs.
Qed.

Lemma logger_log_run site bound lvl message st :
  exists st',
    logger_log site bound lvl message st = (Ok tt, st')
    /\ st_core st' = st_core st /\ st_config st' = st_config st
    /\ _service_context (st_context st') = _service_context (st_context st)
    /\ (PyStr.truthy (current_trace_id st) = true ->
        st_context st' = st_context st).
Proof.
  unfold logger_log. rewrite run_bind. unfold gets at 1.
  destruct (handlers (st_core st)) as [|ih hs] eqn:Hh.
  { exists st. repeat split; reflexivity. }
  destruct (below_min_level (level_no lvl) (st_core st)).
  { exists st. repeat split; reflexivity. }
  rewrite run_bind. unfold gets at 1.
  rewrite run_bind.
  set (record := {| r_time := st_now st; r_level := lvl; r_message := message;
    r_name := cs_name site; r_function := cs_function site;
    r_line := cs_line site; r_extra := bound |}).
  destruct (patcher (st_core st)) as [[]|].
  - destruct (run_patcher_run record st) as (t & st' & Hg & Hp).
    rewrite Hp. unfold modify. eexists. split; [reflexivity|]. cbn.
    destruct (get_trace_id_frame st)
      as (t' & st'' & Hg' & _ & _ & Hs & Hc & Hf & _ & Hst).
    rewrite Hg in Hg'. injection Hg' as <- <-.
    repeat split; auto. intros Ht. now rewrite (Hst Ht).
  - cbv beta iota delta [mret M_ret]. unfold modify. eexists.
    split; [reflexivity|]. cbn. repeat split; reflexivity.
Qed.

(** ** Installing sinks *)

Section Adding.

Context {host : Host}.

(** A [logger.add] call either raises what its arguments deserve, having
    used up an identifier, or appends its handler. *)
Lemma logger_add_fails a e st :
  add_error a = Some e -> logger_add a st = (Raise e, skip_id st).
Proof.
  unfold add_error, logger_add. intros H. rewrite run_bind. unfold gets.
  rewrite run_bind. unfold modify at 1. rewrite run_bind.
  fold (skip_id st).
  destruct (sink_error a) as [e'|]; [now injection H as -> |].
  cbn [check]. cbv beta iota delta [mret M_ret].
  destruct (level_of_name (a_level a)) as [l|]; [|now injection H as <-].
  rewrite run_bind, H. reflexivity.
Qed.

Lemma logger_add_ok a l st :
  add_error a = None -> level_of_name (a_level a) = Some l ->
  logger_add a st
  = (Ok (handlers_count (st_core st)), install (make_handler a l) st).
Proof.
  unfold add_error, logger_add. intros H Hl. rewrite run_bind. unfold gets.
  rewrite run_bind. unfold modify at 1. rewrite run_bind.
  destruct (sink_error a) as [e'|]; [discriminate|].
  cbn [check]. cbv beta iota delta [mret M_ret]. rewrite Hl in *.
  rewrite run_bind, H. cbn [check]. cbv beta iota delta [mret M_ret].
  rewrite run_bind. unfold modify. destruct st as [cfg [hs n p] ctx u d now ds dl].
  reflexivity.
Qed.

Lemma add_error_level a :
  add_error a = None -> exists l, level_of_name (a_level a) = Some l.
Proof.
  unfold add_error. destruct (sink_error a); [discriminate|].
  destruct (level_of_name (a_level a)) as [l|]; [eauto | discriminate].
Qed.


Lemma install_all_app hs1 hs2 st :
  install_all (hs1 ++ hs2) st = install_all hs2 (install_all hs1 st).
Proof. unfold install_all. apply fold_left_app. Qed.




(** ** [setup_logging] *)











End Adding.

(** ** Service-context normalization *)

Section ServiceContextNormalization.

Context {host : Host}.

Lemma isascii_lstrip s :
  PyStr.isascii s = true -> PyStr.isascii (PyStr.lstrip s) = true.
Proof.
  induction s as [|c s IH]; [reflexivity|]. intros H. cbn [PyStr.lstrip].
  destruct (PyStr.isspace c); [|exact H].
  apply IH. cbn [PyStr.isascii] in H. now apply andb_true_iff in H as (_ & ?).
Qed.

Lemma isascii_rstrip s :
  PyStr.isascii s = true -> PyStr.isascii (PyStr.rstrip s) = true.
Proof.
  induction s as [|c s IH]; [reflexivity|]. intros H.
  cbn [PyStr.isascii] in H. apply andb_true_iff in H as (Hc & Hs).
  cbn [PyStr.rstrip]. specialize (IH Hs).
  destruct (PyStr.rstrip s) as [|c' r'].
  - destruct (PyStr.isspace c); [reflexivity|].
    cbn [PyStr.isascii]. now rewrite Hc.
  - cbn [PyStr.isascii] in *. now rewrite Hc.
Qed.

Lemma isascii_ascii_strip s :
  PyStr.isascii s = true -> PyStr.isascii (PyStr.ascii_strip s) = true.
Proof. intros H. now apply isascii_rstrip, isascii_lstrip. Qed.

(** On an ASCII string the normalization is computed here. *)
Lemma lower_strip_ascii s :
  PyStr.isascii s = true ->
  PyStr.lower (PyStr.strip s) = PyStr.ascii_lower (PyStr.ascii_strip s).
Proof.
  intros H. unfold PyStr.lower, PyStr.strip. rewrite H.
  now rewrite (isascii_ascii_strip s H).
Qed.

Example to_ctx_padded :
  _to_service_context (CtxStr "  Scheduler ") = SCHEDULER.
Proof. reflexivity. Qed.

Example to_ctx_typo : _to_service_context (CtxStr "shceduler") = API.
Proof. reflexivity. Qed.

(** C5.  Normalizing a service context never fails: ["app"] gives the api
    context, a string that names a context (once stripped and put in lower
    case, as Python does it for any string) gives that context, any other
    string gives the api default; on an ASCII string the result is the one
    computed from its ASCII stripping and lower-casing;
    [set_service_context] therefore returns for every argument and
    [get_service_context] then returns the normalized value. *)
Theorem to_service_context_never_fails (s : string) (ctx : ctx_arg)
    (st : State) :
  _to_service_context (CtxStr "app") = API
  /\ (forall c, _to_service_context (CtxStr (value c)) = c)
  /\ (forall c, ServiceContext_of_value (PyStr.lower (PyStr.strip s)) = Some c ->
                _to_service_context (CtxStr s) = c)
  /\ (ServiceContext_of_value (PyStr.lower (PyStr.strip s)) = None ->
      _to_service_context (CtxStr s) = API)
  /\ (PyStr.isascii s = true ->
      _to_service_context (CtxStr s)
      = default API
          (ServiceContext_of_value
             (PyStr.ascii_lower (PyStr.ascii_strip s))))
  /\ exists st',
       set_service_context ctx st = (Ok tt, st')
       /\ get_service_context st' = (Ok (_to_service_context ctx), st').
Proof.
  split; [reflexivity|]. split; [intros []; reflexivity|].
  assert (forall c,
            ServiceContext_of_value (PyStr.lower (PyStr.strip s)) = Some c ->
            _to_service_context (CtxStr s) = c) as Hsome.
  { intros c Hc. unfold _to_service_context.
    destruct (String.eqb (PyStr.lower (PyStr.strip s)) "app") eqn:Happ.
    - apply String.eqb_eq in Happ. rewrite Happ in Hc. discriminate.
    - now rewrite Hc. }
  assert (ServiceContext_of_value (PyStr.lower (PyStr.strip s)) = None ->
          _to_service_context (CtxStr s) = API) as Hnone.
  { intros Hc. unfold _to_service_context.
    destruct (String.eqb (PyStr.lower (PyStr.strip s)) "app").
    - reflexivity.
    - now rewrite Hc. }
  split; [exact Hsome|]. split; [exact Hnone|]. split.
  - intros Ha. rewrite <- (lower_strip_ascii s Ha).
    destruct (ServiceContext_of_value (PyStr.lower (PyStr.strip s))) as [c|]
      eqn:E; [now apply Hsome | now apply Hnone].
  - eexists. split; reflexivity.
Qed.

End ServiceContextNormalization.

Lemma to_service_context_never_fails_witness :
  _to_service_context (CtxStr " Worker ") = WORKER
  /\ _to_service_context (CtxStr "cron") = API.
Proof.
  pose proof (to_service_context_never_fails " Worker " (CtxStr "x")
                sample_state) as (_ & _ & Hw & _).
  pose proof (to_service_context_never_fails "cron" (CtxStr "x")
                sample_state) as (_ & _ & _ & Hc & _).
  split; [apply Hw; reflexivity | apply Hc; reflexivity].
Defined.

(** ** Trace identifiers *)

(** C4.  Where no trace id has been set, [get_trace_id] draws a random
    UUID, stores it and returns it: a string of 36 characters in the
    canonical form of a version-4 UUID, which two draws share exactly when
    they agree on the 122 bits that are not the version's or the
    variant's; every later call returns the same string and changes
    nothing; and after [set_trace_id t] with a non-empty [t] it returns
    exactly [t]. *)
Theorem get_trace_id_generates_once (st : State) :
  _trace_id_var (st_context st) = None ->
  exists st',
    get_trace_id st = (Ok (fresh_trace_id st), st')
    /\ String.length (fresh_trace_id st) = 36%nat
    /\ is_uuid4 (fresh_trace_id st) = true
    /\ (forall st2,
          fresh_trace_id st = fresh_trace_id st2
          <-> forall n, uuid4_free_bit n = true ->
                Z.testbit (st_urandom st (st_drawn st)) n
                = Z.testbit (st_urandom st2 (st_drawn st2)) n)
    /\ _trace_id_var (st_context st') = Some (fresh_trace_id st)
    /\ st_drawn st' = S (st_drawn st)
    /\ (forall n, Nat.iter n (exec get_trace_id) st' = st')
    /\ get_trace_id st' = (Ok (fresh_trace_id st), st')
    /\ (forall t s0, t <> "" ->
          get_trace_id (exec (set_trace_id t) s0)
          = (Ok t, exec (set_trace_id t) s0)).
Proof.
  intros Hunset.
  assert (PyStr.truthy (current_trace_id st) = false) as Hf.
  { unfold current_trace_id. now rewrite Hunset. }
  destruct (get_trace_id_unset st Hf) as (st' & Hr & Hc & _ & _ & _ & Hd & _).
  assert (get_trace_id st' = (Ok (fresh_trace_id st), st')) as Hagain.
  { assert (current_trace_id st' = fresh_trace_id st) as E.
    { unfold current_trace_id. now rewrite Hc. }
    rewrite <- E. apply get_trace_id_set. rewrite E. apply truthy_uuid_str. }
  exists st'.
  split; [exact Hr|]. split; [apply length_uuid_str|].
  split; [apply uuid_str_uuid4|]. split.
  { intros st2. rewrite <- uuid4_int_eq. unfold fresh_trace_id. split.
    - apply uuid_str_inj; apply uuid4_int_range.
    - now intros ->. }
  repeat split; auto.
  - now rewrite Hc.
  - induction n as [|n IH]; [reflexivity|].
    simpl. rewrite IH. unfold exec. now rewrite Hagain.
  - intros t s0 Ht.
    assert (current_trace_id (exec (set_trace_id t) s0) = t) as E by reflexivity.
    rewrite <- E at 2. apply get_trace_id_set. rewrite E.
    now apply truthy_nonempty.
Qed.

Lemma get_trace_id_generates_once_witness :
  exists st',
    get_trace_id sample_state = (Ok (fresh_trace_id sample_state), st')
    /\ String.length (fresh_trace_id sample_state) = 36%nat
    /\ is_uuid4 (fresh_trace_id sample_state) = true.
Proof.
  destruct (get_trace_id_generates_once sample_state eq_refl)
    as (st' & Hr & Hlen & Hshape & _).
  exists st'. repeat split; assumption.
Defined.

Example sample_fresh_trace_id :
  fresh_trace_id sample_state = "00000000-0000-4000-9234-56789abcdef0".
Proof. vm_compute. reflexivity. Qed.

(** C10.  [set_trace_id("")] puts the scope back into the unset state: the
    next [get_trace_id] does not return the empty string but draws a UUID,
    stores it and returns it; the same happens whenever the stored value
    is empty. *)
Theorem set_trace_id_empty_unsets (st : State) :
  (exists st',
     get_trace_id (exec (set_trace_id "") st)
     = (Ok (fresh_trace_id (exec (set_trace_id "") st)), st')
     /\ fresh_trace_id (exec (set_trace_id "") st) <> ""
     /\ _trace_id_var (st_context st')
        = Some (fresh_trace_id (exec (set_trace_id "") st)))
  /\ (current_trace_id st = "" ->
      exists st',
        get_trace_id st = (Ok (fresh_trace_id st), st')
        /\ fresh_trace_id st <> ""
        /\ String.length (fresh_trace_id st) = 36%nat
        /\ _trace_id_var (st_context st') = Some (fresh_trace_id st)
        /\ st_drawn st' = S (st_drawn st)).
Proof.
  assert (forall s, fresh_trace_id s <> "") as Hne.
  { intros s E. pose proof (length_uuid_str
      (Uuid.uuid4_int (st_urandom s (st_drawn s)))) as L.
    unfold fresh_trace_id in E. rewrite E in L. discriminate. }
  split.
  - destruct (get_trace_id_unset (exec (set_trace_id "") st) eq_refl)
      as (st' & Hr & Hc & _).
    exists st'. repeat split; auto. now rewrite Hc.
  - intros He.
    assert (PyStr.truthy (current_trace_id st) = false) as Hf by now rewrite He.
    destruct (get_trace_id_unset st Hf) as (st' & Hr & Hc & _ & _ & _ & Hd & _).
    exists st'. repeat split; auto using length_uuid_str. now rewrite Hc.
Qed.

Lemma set_trace_id_empty_unsets_witness :
  exists st',
    get_trace_id sample_state = (Ok (fresh_trace_id sample_state), st')
    /\ fresh_trace_id sample_state <> "".
Proof.
  destruct (set_trace_id_empty_unsets sample_state) as (_ & H).
  destruct (H eq_refl) as (st' & Hr & Hne & _).
  exists st'. split; assumption.
Defined.

(** ** The patcher *)


Lemma stamp_extra record t service :
  r_extra (stamp record t service) !! "trace_id" = Some (PyStr t)
  /\ r_extra (stamp record t service) !! "service" = Some (PyStr (value service))
  /\ (forall k, k <> "trace_id" -> k <> "service" ->
        r_extra (stamp record t service) !! k = r_extra record !! k).
Proof.
  unfold stamp, with_extra. cbn [r_extra]. repeat split.
  - rewrite lookup_insert_ne by discriminate. apply lookup_insert_eq.
  - apply lookup_insert_eq.
  - intros k H1 H2.
    rewrite lookup_insert_ne by congruence.
    now rewrite lookup_insert_ne by congruence.
Qed.


Section Patcher.

Context {host : Host}.


End Patcher.


(** ** Sink filters *)

Lemma py_eq_str_get (d : gmap string pyval) (key c : string) :
  py_eq_str (dict_get d key PyNone) c = true <-> d !! key = Some (PyStr c).
Proof.
  unfold dict_get. destruct (d !! key) as [v|]; simpl.
  - destruct v; simpl; try (split; [discriminate | intros [=]]).
    rewrite String.eqb_eq. split; [intros ->; reflexivity | intros [=]; assumption].
  - split; discriminate.
Qed.

Lemma not_truthy_get (record : LogRecord) (key : string) :
  truthy (dict_get (r_extra record) key (PyBool false)) = false
  <-> ~ extra_truthy record key.
Proof.
  unfold dict_get, extra_truthy.
  destruct (r_extra record !! key) as [v|]; simpl.
  - split.
    + intros Hf (v' & [= <-] & Ht). congruence.
    + intros Hn. destruct (truthy v) eqn:Ht; [|reflexivity].
      exfalso. apply Hn. eauto.
  - split; [|reflexivity]. intros _ (v' & [=] & _).
Qed.


Lemma level_name_not_error (l : Level) :
  negb (existsb (String.eqb (level_name l)) ["ERROR"; "CRITICAL"]) = true
  <-> level_name l <> "ERROR" /\ level_name l <> "CRITICAL".
Proof.
  cbn [existsb]. rewrite orb_false_r, negb_true_iff, orb_false_iff.
  split.
  - intros (H1 & H2). split; intros E; rewrite E in *; discriminate.
  - intros (H1 & H2). split; apply String.eqb_neq; assumption.
Qed.


Lemma info_filter_spec (c : string) (record : LogRecord) :
  eval_filter (InfoFilter c) record = true
  <-> r_extra record !! "service" = Some (PyStr c)
      /\ level_name (r_level record) <> "ERROR"
      /\ level_name (r_level record) <> "CRITICAL"
      /\ ~ extra_truthy record "access".
Proof.
  unfold eval_filter. rewrite !andb_true_iff, py_eq_str_get,
    level_name_not_error, negb_true_iff, not_truthy_get. tauto.
Qed.

Lemma error_filter_spec (c : string) (record : LogRecord) :
  eval_filter (ErrorFilter c) record = true
  <-> r_extra record !! "service" = Some (PyStr c).
Proof. unfold eval_filter. apply py_eq_str_get. Qed.


Section SinkFilters.

Context {host : Host}.



End SinkFilters.



(** A record stamped ["scheduler"] passes the scheduler sinks' filters and
    fails those of a worker's sinks; at level ERROR it fails the INFO-tier
    filter and passes the ERROR-tier one. *)
Example scheduler_record_routing :
  let record := stamp sample_record "abc" SCHEDULER in
  let failure := stamp {| r_time := sample_time; r_level := ERROR;
                          r_message := "boom"; r_name := "jobs";
                          r_function := "run"; r_line := 7; r_extra := ∅ |}
                   "abc" SCHEDULER in
  eval_filter (InfoFilter "scheduler") record = true
  /\ eval_filter (InfoFilter "worker") record = false
  /\ eval_filter (ErrorFilter "worker") failure = false
  /\ eval_filter (InfoFilter "scheduler") failure = false
  /\ eval_filter (ErrorFilter "scheduler") failure = true.
Proof. vm_compute. repeat split; reflexivity. Qed.

(** ** The sinks [setup_logging] installs *)

Section InstalledSinks.

Context {host : Host}.

Lemma context_sink_pair args l c :
  exists info error,
    context_sinks (or_str (log_dir args) "logs") (setup_rotation args)
      (PyStr.upper (log_level args)) (retention_days args)
      (enable_file_rotation args) l c = [info; error]
    /\ h_filter info = Some (InfoFilter c) /\ h_level info = l
    /\ h_filter error = Some (ErrorFilter c) /\ h_level error = ERROR
    /\ is_file_sink info = true /\ is_file_sink error = true
    /\ h_format info = file_format /\ h_format error = file_format
    /\ h_target info = File (context_file args c InfoTier)
    /\ h_target error = File (context_file args c ErrorTier).
Proof.
  unfold context_sinks, context_file. do 2 eexists. split; [reflexivity|].
  destruct (enable_file_rotation args); repeat split; reflexivity.
Qed.



End InstalledSinks.


Example default_setup_files :
  map h_target (file_sinks (exec (setup_logging default_setup) sample_state))
  = [File "logs/api_info_{time:YYYY-MM-DD}.log";
     File "logs/api_error_{time:YYYY-MM-DD}.log";
     File "logs/scheduler_info_{time:YYYY-MM-DD}.log";
     File "logs/scheduler_error_{time:YYYY-MM-DD}.log"].
Proof. vm_compute. reflexivity. Qed.

(** ** Re-running [setup_logging] *)

Section Rerunning.

Context {host : Host}.





End Rerunning.


Example three_setups_five_handlers :
  length (handlers (st_core
    (Nat.iter 3 (exec (setup_logging default_setup)) sample_state))) = 5%nat.
Proof. vm_compute. reflexivity. Qed.

(** ** [register_log_sink] *)

Section Registering.

Context {host : Host}.

Lemma register_log_sink_uninitialized name filter_key level sink_format st :
  cfg_initialized (st_config st) = false ->
  register_log_sink name filter_key level sink_format st
  = (Raise not_initialized, st).
Proof.
  intros Hi. unfold register_log_sink. rewrite run_bind. unfold gets.
  now rewrite Hi.
Qed.

(** After the guard, [register_log_sink] is its [logger.add] call and,
    when that returns, its logging call. *)
Lemma register_log_sink_adds name filter_key level sink_format st :
  cfg_initialized (st_config st) = true ->
  register_log_sink name filter_key level sink_format st
  = match add_error (register_args (st_config st) name filter_key level
                       sink_format),
          level_of_name level with
    | None, Some l =>
        logger_log {| cs_name := module_name;
                      cs_function := "register_log_sink"; cs_line := 169 |}
          ∅ DEBUG (registration_message name filter_key)
          (install (custom_sink (st_config st) name filter_key sink_format l)
             st)
    | Some e, _ => (Raise e, skip_id st)
    | None, None => (Raise (unknown_level level), skip_id st)
    end.
Proof.
  intros Hi. unfold register_log_sink. rewrite run_bind. unfold gets.
  rewrite Hi. cbn [negb]. rewrite run_bind.
  match goal with |- context [logger_add ?a st] =>
    change a
      with (register_args (st_config st) name filter_key level sink_format)
  end.
  destruct (add_error (register_args (st_config st) name filter_key level
                         sink_format)) as [e|] eqn:He.
  - now rewrite (logger_add_fails _ e st He).
  - destruct (add_error_level _ He) as (l & Hl).
    change (a_level (register_args (st_config st) name filter_key level
                       sink_format)) with level in Hl.
    rewrite Hl. now rewrite (logger_add_ok _ l st He Hl).
Qed.









End Registering.



(** ** The file format *)

Lemma append_empty_r (s : string) : s ++ "" = s.
Proof.
  induction s as [|c s IH]; [reflexivity|].
  change (String c s ++ "") with (String c (s ++ "")). now rewrite IH.
Qed.

Lemma format_str_plain (s : string) : Fmt.format_str "" s = Some s.
Proof.
  change (Fmt.format_str "" s) with (Some (PyStr.ljust 0 " " s)).
  unfold PyStr.ljust. cbn [Nat.sub PyStr.replicate]. now rewrite append_empty_r.
Qed.

Lemma format_str_left_8 (s : string) :
  Fmt.format_str " <8" s = Some (PyStr.ljust 8 " " s).
Proof. reflexivity. Qed.

Lemma format_time_file (t : DateTime) :
  Fmt.format_time "YYYY-MM-DD HH:mm:ss" t
  = Some (Fmt.zfill 4 (year t) ++ "-" ++ Fmt.zfill 2 (month t) ++ "-" ++
          Fmt.zfill 2 (day t) ++ " " ++ Fmt.zfill 2 (hour t) ++ ":" ++
          Fmt.zfill 2 (minute t) ++ ":" ++ Fmt.zfill 2 (second t)).
Proof. reflexivity. Qed.

Lemma parse_file_format :
  Fmt.parse file_format
  = Some [Fmt.Field "time" "YYYY-MM-DD HH:mm:ss"; Fmt.Lit " | ";
          Fmt.Field "level" " <8"; Fmt.Lit " | ";
          Fmt.Field "name" ""; Fmt.Lit ":"; Fmt.Field "function" "";
          Fmt.Lit ":"; Fmt.Field "line" ""; Fmt.Lit " | ";
          Fmt.Field "extra[trace_id]" ""; Fmt.Lit " - ";
          Fmt.Field "message" ""].
Proof. vm_compute. reflexivity. Qed.

Lemma string_app_assoc (a b c : string) : (a ++ b) ++ c = a ++ (b ++ c).
Proof.
  induction a as [|x a IH]; [reflexivity|].
  change ((String x a ++ b) ++ c) with (String x ((a ++ b) ++ c)).
  change (String x a ++ (b ++ c)) with (String x (a ++ (b ++ c))).
  now rewrite IH.
Qed.




(** On an ASCII string the code points are the bytes. *)
Lemma len_ascii s : PyStr.isascii s = true -> PyStr.len s = String.length s.
Proof.
  induction s as [|c s IH]; [reflexivity|]. cbn [PyStr.isascii].
  intros H. apply andb_true_iff in H as (Hc & Hs).
  cbn [PyStr.len String.length]. rewrite (IH Hs).
  unfold PyStr.is_continuation.
  apply N.ltb_lt in Hc.
  destruct (N.leb_spec 128 (PyStr.code c)); [lia|]. reflexivity.
Qed.

Section FileFormat.

Context {host : Host}.



End FileFormat.



(** ** Logical tasks *)

Lemma in_task_eq {A} (t : nat) (m : M A) (w : World) :
  let s := set_context (fun _ => task_context w t) (w_state w) in
  in_task t m w
  = (fst (m s),
     {| w_state := snd (m s);
        w_contexts := <[t := st_context (snd (m s))]> (w_contexts w) |}).
Proof. unfold in_task. cbn zeta. now destruct (m _). Qed.

Section LogicalTasks.

Context {host : Host}.

Lemma register_log_sink_context name filter_key level sink_format st :
  let st' := exec (register_log_sink name filter_key level sink_format) st in
  _service_context (st_context st') = _service_context (st_context st)
  /\ (PyStr.truthy (current_trace_id st) = true ->
      st_context st' = st_context st).
Proof.
  cbn zeta. unfold exec.
  destruct (cfg_initialized (st_config st)) eqn:Hi.
  - rewrite register_log_sink_adds by exact Hi.
    destruct (add_error _) as [e|]; [split; reflexivity|].
    destruct (level_of_name level) as [l|]; [|split; reflexivity].
    match goal with |- context [logger_log ?s ?b ?v ?m ?st1] =>
      destruct (logger_log_run s b v m st1) as (st2 & -> & _ & _ & Hsvc & Hctx)
    end.
    cbn [snd]. split; [exact Hsvc|]. intros Ht. now rewrite Hctx.
  - rewrite register_log_sink_uninitialized by exact Hi. split; reflexivity.
Qed.

(** A call that assigns no context variable keeps the caller's service
    context, and keeps its whole context once a trace id is there. *)
Lemma call_context_stable call st :
  assigns_context call = false ->
  let st' := exec (call_run call) st in
  _service_context (st_context st') = _service_context (st_context st)
  /\ (PyStr.truthy (current_trace_id st) = true ->
      st_context st' = st_context st).
Proof.
  intros Hc.
  destruct call as [args|name fk level fmt|ctx| |t| |site bound lvl message];
    try discriminate; cbn [call_run].
  - apply register_log_sink_context.
  - split; reflexivity.
  - unfold exec. rewrite run_bind.
    destruct (get_trace_id_frame st)
      as (t & st' & -> & _ & _ & Hs & _ & _ & _ & Hsame).
    cbn [snd mret M_ret]. split; [exact Hs|].
    intros Ht. now rewrite (Hsame Ht).
  - unfold exec.
    destruct (logger_log_run site bound lvl message st)
      as (st' & -> & _ & _ & Hs & Hx).
    split; assumption.
Qed.

Lemma step_run_context t call w :
  w_contexts (step w (Run t call)) !! t
  = Some (st_context
            (exec (call_run call)
               (set_context (fun _ => task_context w t) (w_state w)))).
Proof.
  cbn [step]. rewrite in_task_eq. cbn [snd w_contexts].
  now rewrite lookup_insert_eq.
Qed.

Lemma step_other_context t e w ctx :
  match e with Run u _ => u <> t | Spawn _ _ => True end ->
  w_contexts w !! t = Some ctx ->
  w_contexts (step w e) !! t = Some ctx.
Proof.
  intros Hne Hw. destruct e as [u call|parent child]; cbn [step].
  - rewrite in_task_eq. cbn [snd w_contexts]. now rewrite lookup_insert_ne.
  - unfold spawn. destruct (w_contexts w !! child) eqn:Hchild; [exact Hw|].
    cbn [w_contexts]. rewrite lookup_insert_ne; [exact Hw|].
    intros ->. congruence.
Qed.

Lemma step_keeps_service t e w svc :
  keeps_assignment t e ->
  (exists ctx, w_contexts w !! t = Some ctx /\ _service_context ctx = svc) ->
  exists ctx, w_contexts (step w e) !! t = Some ctx
              /\ _service_context ctx = svc.
Proof.
  intros Hk (ctx & Hw & Hsvc).
  destruct e as [u call|parent child].
  - destruct (decide (u = t)) as [->|Hne].
    + eexists. split; [apply step_run_context|].
      destruct (call_context_stable call
                  (set_context (fun _ => task_context w t) (w_state w)))
        as (Hs & _); [now apply Hk|].
      rewrite Hs. cbn [st_context set_context]. unfold task_context.
      now rewrite Hw.
    + exists ctx. split; [|exact Hsvc]. now apply step_other_context.
  - exists ctx. split; [|exact Hsvc]. now apply step_other_context.
Qed.

Lemma step_keeps_context t e w svc v :
  keeps_assignment t e ->
  v <> "" ->
  w_contexts w !! t
  = Some {| _service_context := svc; _trace_id_var := Some v |} ->
  w_contexts (step w e) !! t
  = Some {| _service_context := svc; _trace_id_var := Some v |}.
Proof.
  intros Hk Hv Hw. destruct e as [u call|parent child].
  - destruct (decide (u = t)) as [->|Hne].
    + rewrite step_run_context. f_equal.
      destruct (call_context_stable call
                  (set_context (fun _ => task_context w t) (w_state w)))
        as (_ & Hx); [now apply Hk|].
      rewrite Hx.
      * cbn [st_context set_context]. unfold task_context. now rewrite Hw.
      * unfold current_trace_id. cbn [st_context set_context].
        unfold task_context. rewrite Hw. cbn. now apply truthy_nonempty.
    + now apply step_other_context.
  - now apply step_other_context.
Qed.

Lemma run_events_keep_service t es :
  Forall (keeps_assignment t) es ->
  forall w svc,
    (exists ctx, w_contexts w !! t = Some ctx /\ _service_context ctx = svc) ->
    exists ctx, w_contexts (run_events es w) !! t = Some ctx
                /\ _service_context ctx = svc.
Proof.
  induction 1 as [|e es He Hes IH]; intros w svc Hw; [exact Hw|].
  change (run_events (e :: es) w) with (run_events es (step w e)).
  apply IH. now apply step_keeps_service.
Qed.

Lemma run_events_keep_context t es :
  Forall (keeps_assignment t) es ->
  forall w svc v,
    v <> "" ->
    w_contexts w !! t
    = Some {| _service_context := svc; _trace_id_var := Some v |} ->
    w_contexts (run_events es w) !! t
    = Some {| _service_context := svc; _trace_id_var := Some v |}.
Proof.
  induction 1 as [|e es He Hes IH]; intros w svc v Hv Hw; [exact Hw|].
  change (run_events (e :: es) w) with (run_events es (step w e)).
  apply IH; [exact Hv|]. now apply step_keeps_context.
Qed.

(** C8.  The context store is kept per logical task.  Let task [t] call
    [set_service_context] and, at some later point, [set_trace_id] with a
    non-empty id, and let any interleaving of events run in between and
    afterwards: calls of every kind by other tasks (their own
    [set_service_context], [set_trace_id] and [setup_logging] included),
    task creation, and calls by [t] that assign no context variable.
    Then [get_service_context] and [get_trace_id] in [t] return the values
    [t] set, never a value of another task. *)
Theorem task_contexts_isolated (w : World) (t : nat) (c : ctx_arg)
    (v : string) (between after : list Event) :
  v <> "" ->
  Forall (keeps_assignment t) between ->
  Forall (keeps_assignment t) after ->
  let w1 := run_events between (step w (Run t (CallSetContext c))) in
  let w2 := run_events after (step w1 (Run t (CallSetTrace v))) in
  fst (in_task t get_service_context w2) = Ok (_to_service_context c)
  /\ fst (in_task t get_trace_id w2) = Ok v.
Proof.
  intros Hv Hbetween Hafter w1 w2.
  assert (exists ctx, w_contexts w1 !! t = Some ctx
            /\ _service_context ctx = Some (_to_service_context c))
    as (ctx1 & Hctx1 & Hsvc1).
  { unfold w1. apply run_events_keep_service; [exact Hbetween|].
    eexists. split; [apply step_run_context | reflexivity]. }
  assert (w_contexts w2 !! t
          = Some {| _service_context := Some (_to_service_context c);
                    _trace_id_var := Some v |}) as Hctx.
  { unfold w2. apply run_events_keep_context; [exact Hafter | exact Hv |].
    rewrite step_run_context. f_equal.
    cbn [call_run]. unfold exec, set_trace_id, _trace_id_var_set, modify.
    cbn [snd st_context set_context]. unfold task_context.
    now rewrite Hctx1, <- Hsvc1. }
  split.
  - rewrite in_task_eq. cbn [fst]. unfold get_service_context, gets.
    cbn [fst st_context set_context]. unfold task_context. now rewrite Hctx.
  - rewrite in_task_eq. cbn [fst]. rewrite get_trace_id_set.
    + cbn [fst]. unfold current_trace_id. cbn [st_context set_context].
      unfold task_context. now rewrite Hctx.
    + unfold current_trace_id. cbn [st_context set_context].
      unfold task_context. rewrite Hctx. cbn. now apply truthy_nonempty.
Qed.

End LogicalTasks.

Lemma task_contexts_isolated_witness :
  let w1 := run_events sample_prelude
              (step sample_world (Run 1 (CallSetContext (CtxStr "scheduler")))) in
  let w2 := run_events sample_interleaving
              (step w1 (Run 1 (CallSetTrace "trace-a"))) in
  fst (in_task 1 get_service_context w2) = Ok SCHEDULER
  /\ fst (in_task 1 get_trace_id w2) = Ok "trace-a".
Proof.
  apply (task_contexts_isolated sample_world 1 (CtxStr "scheduler") "trace-a"
           sample_prelude sample_interleaving).
  - discriminate.
  - repeat constructor; simpl; intros; try lia; reflexivity.
  - repeat constructor; simpl; intros; try lia; reflexivity.
Defined.

Example interleaved_tasks_keep_their_values :
  let w1 := run_events sample_prelude
              (step sample_world (Run 1 (CallSetContext (CtxStr "scheduler")))) in
  let w2 := run_events sample_interleaving
              (step w1 (Run 1 (CallSetTrace "trace-a"))) in
  fst (in_task 1 get_trace_id w2) = Ok "trace-a"
  /\ fst (in_task 2 get_trace_id w2) = Ok "trace-b"
  /\ fst (in_task 2 get_service_context w2) = Ok API
  /\ fst (in_task 3 get_service_context w2) = Ok WORKER
  /\ fst (in_task 3 get_trace_id w2)
     = Ok "00000000-0000-4000-9234-56789abcdef0".
Proof. vm_compute. repeat split; reflexivity. Qed.

(* ===================================================================== *)
(** * Further properties *)
(* ===================================================================== *)

(** ** Logging calls in general *)

Lemma logger_log_dropped site bound lvl message st :
  handlers (st_core st) = []
  \/ below_min_level (level_no lvl) (st_core st) = true ->
  logger_log site bound lvl message st = (Ok tt, st).
Proof.
  intros H. unfold logger_log. rewrite run_bind. unfold gets at 1.
  destruct (handlers (st_core st)) as [|ih hs] eqn:Hh; [reflexivity|].
  destruct H as [H|H]; [discriminate|]. now rewrite H.
Qed.

Lemma logger_log_records site bound lvl message st :
  exists st' new,
    logger_log site bound lvl message st = (Ok tt, st')
    /\ st_delivered st' = (st_delivered st ++ new)%list
    /\ st_core st' = st_core st /\ st_config st' = st_config st
    /\ forall i r, (i, r) ∈ new ->
         (exists h, (i, h) ∈ handlers (st_core st)
                    /\ handler_accepts h r = true)
         /\ r_level r = lvl /\ r_message r = message
         /\ (forall k, k <> "trace_id" -> k <> "service" ->
               r_extra r !! k = bound !! k).
Proof.
  unfold logger_log. rewrite run_bind. unfold gets at 1.
  destruct (handlers (st_core st)) as [|ih hs] eqn:Hh.
  { exists st, []. rewrite app_nil_r. repeat split; auto.
    all: intros; exfalso; eapply not_elem_of_nil; eauto. }
  destruct (below_min_level (level_no lvl) (st_core st)).
  { exists st, []. rewrite app_nil_r. repeat split; auto.
    all: intros; exfalso; eapply not_elem_of_nil; eauto. }
  rewrite run_bind. unfold gets at 1. rewrite run_bind.
  fold (built_record site bound lvl message st).
  set (record := built_record site bound lvl message st).
  assert (forall rec st1,
    st_delivered st1 = st_delivered st -> st_core st1 = st_core st ->
    st_config st1 = st_config st ->
    r_level rec = lvl -> r_message rec = message ->
    (forall k, k <> "trace_id" -> k <> "service" -> r_extra rec !! k = bound !! k) ->
    exists st' new,
      modify (set_delivered (fun d => (d ++ deliveries (ih :: hs) rec)%list)) st1
      = (Ok tt, st')
      /\ st_delivered st' = (st_delivered st ++ new)%list
      /\ st_core st' = st_core st /\ st_config st' = st_config st
        /\ forall i r, (i, r) ∈ new ->
           (exists h, (i, h) ∈ ih :: hs /\ handler_accepts h r = true)
           /\ r_level r = lvl /\ r_message r = message
           /\ (forall k, k <> "trace_id" -> k <> "service" ->
                 r_extra r !! k = bound !! k)) as Hdeliver.
  { intros rec st1 Hd Hc Hcfg Hl Hm Hk.
    unfold modify. eexists. exists (deliveries (ih :: hs) rec).
    split; [reflexivity|]. cbn [st_delivered set_delivered st_core st_config].
    rewrite Hd. repeat split; auto.
    all: apply list_elem_of_omap in H as ([i' h] & Hih & Hacc);
      cbn [fst snd] in Hacc;
      destruct (handler_accepts h rec) eqn:Ha; [|discriminate];
      injection Hacc as <- <-; eauto. }
  destruct (patcher (st_core st)) as [[]|].
  - destruct (run_patcher_run record st) as (t & st1 & Hg & ->).
    destruct (get_trace_id_frame st)
      as (t' & st1' & Hg' & _ & _ & _ & Hc & Hcfg & Hd & _).
    rewrite Hg in Hg'. injection Hg' as <- <-.
    apply Hdeliver; auto.
    + intros k H1 H2. now apply stamp_extra.
  - cbv beta iota delta [mret M_ret]. apply Hdeliver; auto.
Qed.

Lemma logger_log_stamped site bound lvl message st :
  patcher (st_core st) = Some StampPatcher ->
  handlers (st_core st) <> [] ->
  below_min_level (level_no lvl) (st_core st) = false ->
  exists t st1,
    get_trace_id st = (Ok t, st1)
    /\ logger_log site bound lvl message st
       = (Ok tt,
          set_delivered (fun d =>
            (d ++ deliveries (handlers (st_core st))
                    (stamp (built_record site bound lvl message st) t
                       (current_service_context st)))%list) st1).
Proof.
  intros Hp Hh Hb. unfold logger_log. rewrite run_bind. unfold gets at 1.
  destruct (handlers (st_core st)) as [|ih hs] eqn:E; [congruence|].
  rewrite Hb. rewrite run_bind. unfold gets at 1. rewrite run_bind, Hp.
  fold (built_record site bound lvl message st).
  destruct (run_patcher_run (built_record site bound lvl message st) st)
    as (t & st1 & Hg & ->).
  exists t, st1. split; [exact Hg | reflexivity].
Qed.

Lemma below_min_level_sinks no st :
  below_min_level no (st_core st)
  = forallb (fun h => no <? level_no (h_level h)) (sinks st).
Proof.
  unfold below_min_level, sinks.
  induction (handlers (st_core st)) as [|[i h] hs IH]; [reflexivity|].
  cbn. now rewrite IH.
Qed.

Lemma in_deliveries hs record i r :
  (i, r) ∈ deliveries hs record ->
  r = record /\ exists h, (i, h) ∈ hs /\ handler_accepts h record = true.
Proof.
  intros Hin. apply list_elem_of_omap in Hin as ([i' h] & Hih & Hacc).
  cbn [fst snd] in Hacc.
  destruct (handler_accepts h record) eqn:Ha; [|discriminate].
  injection Hacc as <- <-. eauto.
Qed.




Lemma logger_log_shape site bound lvl message st :
  exists st' new,
    logger_log site bound lvl message st = (Ok tt, st')
    /\ st_delivered st' = (st_delivered st ++ new)%list
    /\ forall i r, (i, r) ∈ new ->
         r_time r = st_now st /\ r_name r = cs_name site
         /\ r_function r = cs_function site /\ r_line r = cs_line site.
Proof.
  unfold logger_log. rewrite run_bind. unfold gets at 1.
  destruct (handlers (st_core st)) as [|ih hs] eqn:Hh.
  { exists st, []. rewrite app_nil_r. repeat split; auto.
    all: exfalso; eapply not_elem_of_nil; eauto. }
  destruct (below_min_level (level_no lvl) (st_core st)).
  { exists st, []. rewrite app_nil_r. repeat split; auto.
    all: exfalso; eapply not_elem_of_nil; eauto. }
  rewrite run_bind. unfold gets at 1. rewrite run_bind.
  fold (built_record site bound lvl message st).
  set (record := built_record site bound lvl message st).
  destruct (patcher (st_core st)) as [[]|].
  - destruct (run_patcher_run record st) as (t & st1 & Hg & ->).
    destruct (get_trace_id_frame st)
      as (t' & st1' & Hg' & _ & _ & _ & Hc & Hcfg & Hd & _).
    rewrite Hg in Hg'. injection Hg' as <- <-.
    unfold modify. eexists. eexists. split; [reflexivity|].
    cbn [st_delivered set_delivered]. rewrite Hd. split; [reflexivity|].
    intros i r Hin. apply in_deliveries in Hin as (-> & _).
    repeat split; reflexivity.
  - cbv beta iota delta [mret M_ret]. unfold modify.
    eexists. eexists. split; [reflexivity|].
    cbn [st_delivered set_delivered]. split; [reflexivity|].
    intros i r Hin. apply in_deliveries in Hin as (-> & _).
    repeat split; reflexivity.
Qed.

(** ** What a set-up leaves behind *)

Section Routing.

Context {host : Host}.





(** ** Which file sinks take a record *)

Section ContextPair.

Variables (args : SetupArgs) (l : Level) (record : LogRecord).

Local Abbreviation ctx_pair :=
  (context_sinks (or_str (log_dir args) "logs") (setup_rotation args)
     (PyStr.upper (log_level args)) (retention_days args)
     (enable_file_rotation args) l).

(** The two sinks of a context, each with its condition. *)
Lemma pair_accepts c :
  exists info error,
    ctx_pair c = [info; error]
    /\ sink_route info = Some (c, InfoTier)
    /\ sink_route error = Some (c, ErrorTier)
    /\ (handler_accepts info record = true
        <-> level_no l <= level_no (r_level record)
            /\ r_extra record !! "service" = Some (PyStr c)
            /\ level_name (r_level record) <> "ERROR"
            /\ level_name (r_level record) <> "CRITICAL"
            /\ ~ extra_truthy record "access")
    /\ (handler_accepts error record = true
        <-> level_no ERROR <= level_no (r_level record)
            /\ r_extra record !! "service" = Some (PyStr c)).
Proof.
  destruct (context_sink_pair args l c)
    as (info & error & Hp & Hfi & Hli & Hfe & Hle & _).
  exists info, error. split; [exact Hp|].
  split; [unfold sink_route; now rewrite Hfi|].
  split; [unfold sink_route; now rewrite Hfe|].
  unfold handler_accepts, filter_accepts. rewrite Hfi, Hli, Hfe, Hle.
  rewrite !andb_true_iff, !Z.leb_le, info_filter_spec, error_filter_spec.
  tauto.
Qed.






Lemma pair_error_only c :
  r_extra record !! "service" = Some (PyStr c) ->
  level_no ERROR <= level_no (r_level record) ->
  level_name (r_level record) = "ERROR"
  \/ level_name (r_level record) = "CRITICAL" ->
  exists error,
    accepting record (ctx_pair c) = [error]
    /\ sink_route error = Some (c, ErrorTier).
Proof.
  intros Hs Hlv Hname.
  destruct (pair_accepts c) as (info & error & -> & _ & Hre & Hinfo & Herror).
  exists error. unfold accepting.
  rewrite filter_cons_False, filter_cons_True.
  - split; [reflexivity | exact Hre].
  - tauto.
  - rewrite Hinfo. tauto.
Qed.






End ContextPair.



End Routing.



(** ** The line [setup_logging] logs about itself *)

Section OwnLine.

Context {host : Host}.


End OwnLine.


(** ** A level name loguru does not know *)

Section UnknownLevel.

Context {host : Host}.


End UnknownLevel.


(** ** A rotation loguru does not accept *)

Section RejectedRotation.

Context {host : Host}.


End RejectedRotation.


(** ** Before the first [setup_logging] *)

Section BeforeSetup.

Context {host : Host}.

Lemma call_before_setup c st :
  is_setup c = false ->
  handlers (st_core st) = [] ->
  cfg_initialized (st_config st) = false ->
  handlers (st_core (exec (call_run c) st)) = []
  /\ cfg_initialized (st_config (exec (call_run c) st)) = false
  /\ st_delivered (exec (call_run c) st) = st_delivered st.
Proof.
  intros Hc Hh Hi.
  destruct c as [args|name fk level fmt|ctx| |t| |site bound lvl message];
    try discriminate; unfold exec; cbn [call_run].
  - rewrite register_log_sink_uninitialized by exact Hi. auto.
  - auto.
  - auto.
  - auto.
  - rewrite run_bind.
    destruct (get_trace_id_frame st)
      as (t & st' & -> & _ & _ & _ & Hcore & Hcfg & Hd & _).
    cbn [snd mret M_ret]. now rewrite Hcore, Hcfg, Hd.
  - rewrite logger_log_dropped by (now left). auto.
Qed.

(** X5.  The module removes loguru's default handler when it is
    imported.  As long as no [setup_logging] call has been made, whatever
    else is called (context and trace-id functions, logging calls,
    [register_log_sink]), there is no sink, no record is delivered anywhere
    and the module stays uninitialized. *)
Theorem nothing_logged_before_setup (urandom : nat -> Z) (now : DateTime)
    (h : list Call) :
  forallb (fun c => negb (is_setup c)) h = true ->
  let st := run_calls h (initial_state urandom now) in
  sinks st = [] /\ st_delivered st = []
  /\ cfg_initialized (st_config st) = false.
Proof.
  intros Hh.
  assert (forall st0,
    handlers (st_core st0) = [] -> cfg_initialized (st_config st0) = false ->
    handlers (st_core (run_calls h st0)) = []
    /\ cfg_initialized (st_config (run_calls h st0)) = false
    /\ st_delivered (run_calls h st0) = st_delivered st0) as Hinv.
  { induction h as [|c h IH]; intros st0 H0 H1; [auto|].
    cbn [forallb] in Hh. apply andb_true_iff in Hh as (Hc & Hrest).
    apply negb_true_iff in Hc.
    change (run_calls (c :: h) st0) with (run_calls h (exec (call_run c) st0)).
    destruct (call_before_setup c st0 Hc H0 H1) as (A & B & C).
    destruct (IH Hrest _ A B) as (A' & B' & C').
    rewrite A', B', C', C. auto. }
  destruct (Hinv (initial_state urandom now) eq_refl eq_refl) as (A & B & C).
  cbn zeta. unfold sinks. rewrite A, B, C. auto.
Qed.

End BeforeSetup.

Lemma nothing_logged_before_setup_witness :
  st_delivered
    (run_calls [CallSetContext (CtxStr "worker");
                CallLog {| cs_name := "app.main"; cs_function := "start";
                           cs_line := 3 |} ∅ ERROR "too early";
                CallRegister "access" (Some "access") "INFO" None]
       sample_state) = [].
Proof.
  apply (nothing_logged_before_setup
           (fun n => 1311768467463790320 * Z.of_nat (S n)) sample_time
           [CallSetContext (CtxStr "worker");
            CallLog {| cs_name := "app.main"; cs_function := "start";
                       cs_line := 3 |} ∅ ERROR "too early";
            CallRegister "access" (Some "access") "INFO" None]).
  reflexivity.
Defined.

(** ** [register_log_sink]: level names and filter keys *)

Section RegisterLevels.

Context {host : Host}.

Lemma builtin_level_sound name l :
  builtin_level name = Some l -> name = level_name l.
Proof.
  unfold builtin_level. intros H. apply find_some in H as (_ & H).
  apply String.eqb_eq in H. now symmetry.
Qed.

Lemma level_of_name_sound name l :
  level_of_name name = Some l -> name = level_name l.
Proof.
  unfold level_of_name.
  destruct (builtin_level name) as [l'|] eqn:Hb.
  - intros [= <-]. now apply builtin_level_sound.
  - destruct (custom_level name) as [no|]; [|discriminate].
    intros [= <-]. reflexivity.
Qed.



End RegisterLevels.



(** ** Case and white space in context names *)

Lemma isspace_upper c : PyStr.isspace (PyStr.upper_char c) = PyStr.isspace c.
Proof. destruct c as [[] [] [] [] [] [] [] []]; reflexivity. Qed.

Lemma isspace_lower c : PyStr.isspace (PyStr.lower_char c) = PyStr.isspace c.
Proof. destruct c as [[] [] [] [] [] [] [] []]; reflexivity. Qed.

Lemma lower_upper_char c :
  PyStr.lower_char (PyStr.upper_char c) = PyStr.lower_char c.
Proof. destruct c as [[] [] [] [] [] [] [] []]; reflexivity. Qed.

Lemma lower_lower_char c :
  PyStr.lower_char (PyStr.lower_char c) = PyStr.lower_char c.
Proof. destruct c as [[] [] [] [] [] [] [] []]; reflexivity. Qed.

Lemma isascii_char_upper c :
  (PyStr.code (PyStr.upper_char c) <? 128)%N = (PyStr.code c <? 128)%N.
Proof. destruct c as [[] [] [] [] [] [] [] []]; reflexivity. Qed.

Lemma isascii_char_lower c :
  (PyStr.code (PyStr.lower_char c) <? 128)%N = (PyStr.code c <? 128)%N.
Proof. destruct c as [[] [] [] [] [] [] [] []]; reflexivity. Qed.

Lemma isascii_char_space c :
  PyStr.isspace c = true -> (PyStr.code c <? 128)%N = true.
Proof. destruct c as [[] [] [] [] [] [] [] []]; intros H; try reflexivity;
  discriminate H. Qed.

Section StripMap.

Variable f : ascii -> ascii.
Hypothesis f_space : forall c, PyStr.isspace (f c) = PyStr.isspace c.
Hypothesis f_ascii :
  forall c, (PyStr.code (f c) <? 128)%N = (PyStr.code c <? 128)%N.

Lemma lstrip_map s :
  PyStr.lstrip (PyStr.map_chars f s) = PyStr.map_chars f (PyStr.lstrip s).
Proof.
  induction s as [|c s IH]; [reflexivity|].
  cbn [PyStr.map_chars PyStr.lstrip]. rewrite f_space.
  destruct (PyStr.isspace c); [exact IH | reflexivity].
Qed.

Lemma rstrip_map s :
  PyStr.rstrip (PyStr.map_chars f s) = PyStr.map_chars f (PyStr.rstrip s).
Proof.
  induction s as [|c s IH]; [reflexivity|].
  cbn [PyStr.map_chars PyStr.rstrip]. rewrite IH, f_space.
  destruct (PyStr.rstrip s); cbn [PyStr.map_chars];
    [destruct (PyStr.isspace c)|]; reflexivity.
Qed.

Lemma strip_map s :
  PyStr.ascii_strip (PyStr.map_chars f s)
  = PyStr.map_chars f (PyStr.ascii_strip s).
Proof. unfold PyStr.ascii_strip. now rewrite lstrip_map, rstrip_map. Qed.

Lemma isascii_map s :
  PyStr.isascii (PyStr.map_chars f s) = PyStr.isascii s.
Proof.
  induction s as [|c s IH]; [reflexivity|].
  cbn [PyStr.map_chars PyStr.isascii]. now rewrite f_ascii, IH.
Qed.

End StripMap.

Lemma map_chars_compose f g s :
  PyStr.map_chars f (PyStr.map_chars g s)
  = PyStr.map_chars (fun c => f (g c)) s.
Proof. induction s as [|c s IH]; [reflexivity|]. cbn. now rewrite IH. Qed.

Lemma map_chars_ext f g s :
  (forall c, f c = g c) -> PyStr.map_chars f s = PyStr.map_chars g s.
Proof.
  intros H. induction s as [|c s IH]; [reflexivity|]. cbn. now rewrite H, IH.
Qed.

Lemma string_cons_app c s t : String c s ++ t = String c (s ++ t).
Proof. reflexivity. Qed.

Lemma isascii_app s t :
  PyStr.isascii (s ++ t) = PyStr.isascii s && PyStr.isascii t.
Proof.
  induction s as [|c s IH]; [reflexivity|].
  rewrite string_cons_app. cbn [PyStr.isascii]. now rewrite IH, andb_assoc.
Qed.

Lemma isascii_blank ws : blank ws = true -> PyStr.isascii ws = true.
Proof.
  induction ws as [|c ws IH]; [reflexivity|]. cbn [blank PyStr.isascii].
  intros H. apply andb_true_iff in H as (Hc & Hws).
  now rewrite (isascii_char_space c Hc), IH.
Qed.

Lemma lstrip_blank_app ws s :
  blank ws = true -> PyStr.lstrip (ws ++ s) = PyStr.lstrip s.
Proof.
  induction ws as [|c ws IH]; intros H; [reflexivity|].
  cbn [blank] in H. apply andb_true_iff in H as (Hc & Hws).
  rewrite string_cons_app. cbn [PyStr.lstrip]. rewrite Hc. now apply IH.
Qed.

Lemma rstrip_blank ws : blank ws = true -> PyStr.rstrip ws = "".
Proof.
  induction ws as [|c ws IH]; intros H; [reflexivity|].
  cbn [blank] in H. apply andb_true_iff in H as (Hc & Hws).
  cbn [PyStr.rstrip]. now rewrite (IH Hws), Hc.
Qed.

Lemma rstrip_app_blank s ws :
  blank ws = true -> PyStr.rstrip (s ++ ws) = PyStr.rstrip s.
Proof.
  intros H. induction s as [|c s IH].
  - change ("" ++ ws) with ws. now rewrite rstrip_blank.
  - rewrite string_cons_app. cbn [PyStr.rstrip]. now rewrite IH.
Qed.

Lemma lstrip_app_blank s ws :
  blank ws = true ->
  PyStr.rstrip (PyStr.lstrip (s ++ ws)) = PyStr.rstrip (PyStr.lstrip s).
Proof.
  intros H. induction s as [|c s IH].
  - change ("" ++ ws) with ws. cbn [PyStr.lstrip PyStr.rstrip].
    assert (blank (PyStr.lstrip ws) = true) as Hb.
    { clear -H. induction ws as [|c ws IH]; [reflexivity|].
      cbn [blank] in H. apply andb_true_iff in H as (Hc & Hws).
      cbn [PyStr.lstrip]. rewrite Hc. now apply IH. }
    now apply rstrip_blank.
  - rewrite string_cons_app. cbn [PyStr.lstrip].
    destruct (PyStr.isspace c); [exact IH|].
    rewrite <- string_cons_app. now apply rstrip_app_blank.
Qed.

Lemma strip_padding before s after :
  blank before = true -> blank after = true ->
  PyStr.ascii_strip (before ++ s ++ after) = PyStr.ascii_strip s.
Proof.
  intros Hb Ha. unfold PyStr.ascii_strip.
  rewrite (lstrip_blank_app before _ Hb). now apply lstrip_app_blank.
Qed.

Section CaseAndPadding.

Context {host : Host}.

Lemma to_service_context_ascii s :
  PyStr.isascii s = true ->
  _to_service_context (CtxStr s)
  = _to_service_context (CtxStr (PyStr.ascii_lower (PyStr.ascii_strip s))).
Proof.
  intros Ha. unfold _to_service_context.
  rewrite (lower_strip_ascii s Ha).
  assert (PyStr.isascii (PyStr.ascii_lower (PyStr.ascii_strip s)) = true)
    as Ha'.
  { unfold PyStr.ascii_lower.
    rewrite (isascii_map _ isascii_char_lower).
    now apply isascii_ascii_strip. }
  rewrite (lower_strip_ascii _ Ha').
  assert (PyStr.ascii_lower
            (PyStr.ascii_strip (PyStr.ascii_lower (PyStr.ascii_strip s)))
          = PyStr.ascii_lower (PyStr.ascii_strip s)) as ->; [|reflexivity].
  unfold PyStr.ascii_lower.
  rewrite (strip_map _ isspace_lower), map_chars_compose.
  rewrite (map_chars_ext _ PyStr.lower_char _ lower_lower_char).
  f_equal.
  unfold PyStr.ascii_strip.
  assert (forall x, PyStr.rstrip (PyStr.rstrip x) = PyStr.rstrip x) as Hrr.
  { assert (forall c r,
              PyStr.rstrip (String c r)
              = match PyStr.rstrip r with
                | EmptyString =>
                    if PyStr.isspace c then EmptyString
                    else String c EmptyString
                | String a b => String c (String a b)
                end) as Hcons by reflexivity.
    induction x as [|c x IH]; [reflexivity|].
    rewrite (Hcons c x). destruct (PyStr.rstrip x) as [|c' x'] eqn:E.
    - destruct (PyStr.isspace c) eqn:Hc; [reflexivity|].
      rewrite Hcons. cbn [PyStr.rstrip]. now rewrite Hc.
    - rewrite Hcons, IH. reflexivity. }
  assert (forall x, PyStr.lstrip (PyStr.rstrip (PyStr.lstrip x))
                    = PyStr.rstrip (PyStr.lstrip x)) as Hlr.
  { induction x as [|c x IH]; [reflexivity|]. cbn [PyStr.lstrip].
    destruct (PyStr.isspace c) eqn:Hc; [exact IH|].
    cbn [PyStr.rstrip].
    destruct (PyStr.rstrip x); rewrite ?Hc; cbn [PyStr.lstrip];
      now rewrite Hc. }
  now rewrite Hlr, Hrr.
Qed.

(** X8.  On ASCII strings [_to_service_context] does not look at the case
    of a context name: an ASCII string, its upper-case form and its
    lower-case form normalize to the same context. *)
Theorem to_service_context_ignores_case (s : string) :
  PyStr.isascii s = true ->
  _to_service_context (CtxStr (PyStr.upper s)) = _to_service_context (CtxStr s)
  /\ _to_service_context (CtxStr (PyStr.lower s))
     = _to_service_context (CtxStr s).
Proof.
  intros Ha.
  assert (PyStr.isascii (PyStr.ascii_upper s) = true) as Hu
    by (unfold PyStr.ascii_upper; now rewrite (isascii_map _ isascii_char_upper)).
  assert (PyStr.isascii (PyStr.ascii_lower s) = true) as Hlo
    by (unfold PyStr.ascii_lower; now rewrite (isascii_map _ isascii_char_lower)).
  unfold PyStr.upper, PyStr.lower. rewrite Ha.
  rewrite (to_service_context_ascii _ Hu), (to_service_context_ascii _ Hlo),
    (to_service_context_ascii s Ha).
  unfold PyStr.ascii_lower, PyStr.ascii_upper. split.
  - rewrite (strip_map _ isspace_upper), map_chars_compose.
    now rewrite (map_chars_ext _ PyStr.lower_char _ lower_upper_char).
  - rewrite (strip_map _ isspace_lower), map_chars_compose.
    now rewrite (map_chars_ext _ PyStr.lower_char _ lower_lower_char).
Qed.

(** X9.  [_to_service_context] does not look at ASCII white space around
    an ASCII context name: such a string with blanks before and after it
    normalizes to the same context as the string itself. *)
Theorem to_service_context_ignores_padding (before s after : string) :
  PyStr.isascii s = true ->
  blank before = true -> blank after = true ->
  _to_service_context (CtxStr (before ++ s ++ after))
  = _to_service_context (CtxStr s).
Proof.
  intros Hs Hb Ha.
  assert (PyStr.isascii (before ++ s ++ after) = true) as Hall.
  { rewrite !isascii_app, Hs, (isascii_blank _ Hb), (isascii_blank _ Ha).
    reflexivity. }
  rewrite (to_service_context_ascii _ Hall), (to_service_context_ascii s Hs).
  now rewrite (strip_padding before s after Hb Ha).
Qed.

End CaseAndPadding.

Lemma to_service_context_ignores_case_witness :
  _to_service_context (CtxStr (PyStr.upper "Scheduler")) = SCHEDULER
  /\ _to_service_context (CtxStr (PyStr.lower "Scheduler")) = SCHEDULER.
Proof.
  destruct (to_service_context_ignores_case "Scheduler" eq_refl) as (Hu & Hl).
  rewrite Hu, Hl. split; reflexivity.
Defined.

Lemma to_service_context_ignores_padding_witness :
  _to_service_context (CtxStr ("  " ++ "worker" ++ " "))
  = _to_service_context (CtxStr "worker").
Proof.
  apply (to_service_context_ignores_padding "  " "worker" " "); reflexivity.
Defined.

(** ** Where the sinks write, and with which settings *)






Section SinkSettings.

Context {host : Host}.








End SinkSettings.



(** ** Formats *)

Lemma format_trace_id_field record :
  Fmt.format_field "extra[trace_id]" "" record
  = py_str <$> (r_extra record !! "trace_id").
Proof.
  change (Fmt.format_field "extra[trace_id]" "" record)
    with (r_extra record !! "trace_id" ≫= fun v =>
            match v with
            | PyStr s => Fmt.format_str "" s
            | _ => Some (py_str v)
            end).
  destruct (r_extra record !! "trace_id") as [v|]; [|reflexivity].
  cbn [mbind option_bind fmap option_fmap option_map].
  destruct v as [| [] | |s]; try reflexivity. apply format_str_plain.
Qed.

(** X12.  The file format renders a record exactly when the record's
    [extra] has a [trace_id]: the line then shows that value in the layout
    timestamp, level padded to eight columns on the right,
    module:function:line, trace id, message; without the key no line is
    rendered. *)
Theorem file_format_needs_trace_id (record : LogRecord) :
  Fmt.format_record file_format record
  = (fun v => file_line record (py_str v)) <$> (r_extra record !! "trace_id").
Proof.
  unfold Fmt.format_record. rewrite parse_file_format.
  cbn [mbind option_bind Fmt.render].
  change (Fmt.format_field "time" "YYYY-MM-DD HH:mm:ss" record)
    with (Fmt.format_time "YYYY-MM-DD HH:mm:ss" (r_time record)).
  rewrite format_time_file.
  change (Fmt.format_field "level" " <8" record)
    with (Fmt.format_str " <8" (level_name (r_level record))).
  rewrite format_str_left_8.
  change (Fmt.format_field "name" "" record)
    with (Fmt.format_str "" (r_name record)).
  change (Fmt.format_field "function" "" record)
    with (Fmt.format_str "" (r_function record)).
  change (Fmt.format_field "message" "" record)
    with (Fmt.format_str "" (r_message record)).
  change (Fmt.format_field "line" "" record)
    with (Some (pretty (r_line record))).
  rewrite format_trace_id_field, !format_str_plain.
  destruct (r_extra record !! "trace_id") as [v|]; [|reflexivity].
  cbn [mbind option_bind fmap option_fmap option_map].
  unfold file_line. f_equal.
  rewrite append_empty_r, !string_app_assoc. reflexivity.
Qed.



Section CustomFormat.

Context {host : Host}.


End CustomFormat.


(** ** The access stream and other filter keys *)


Section AccessStream.

Context {host : Host}.





(** ** The line [register_log_sink] logs about itself *)


End AccessStream.




(** ** Decorators *)

Lemma after_line_frame line st :
  exists new,
    st_delivered (after_line line st) = (st_delivered st ++ new)%list
    /\ st_core (after_line line st) = st_core st
    /\ st_config (after_line line st) = st_config st
    /\ forall i r, (i, r) ∈ new ->
         exists site lvl message,
           line = Some (site, lvl, message)
           /\ r_level r = lvl /\ r_message r = message
           /\ r_line r = cs_line site
           /\ exists h, (i, h) ∈ handlers (st_core st)
                        /\ handler_accepts h r = true.
Proof.
  destruct line as [[[site lvl] message]|]; cbn [after_line].
  - unfold exec.
    destruct (logger_log_records site ∅ lvl message st)
      as (st' & new & Hl & Hd & Hc & Hcfg & Hnew).
    destruct (logger_log_shape site ∅ lvl message st)
      as (st2 & new2 & Hl2 & Hd2 & Hshape).
    rewrite Hl in Hl2. injection Hl2 as <-.
    rewrite Hd in Hd2. apply app_inv_head in Hd2 as <-.
    rewrite Hl. cbn [snd]. exists new. repeat split; auto.
    intros i r Hin. exists site, lvl, message.
    destruct (Hnew i r Hin) as (Hh & Hlv & Hm & _).
    destruct (Hshape i r Hin) as (_ & _ & _ & Hline).
    repeat split; auto.
  - exists []. rewrite app_nil_r. repeat split; auto.
    intros i r Hin. now apply not_elem_of_nil in Hin.
Qed.

(** X17.  A call through [log_performance] returns what the wrapped
    function returns and raises what it raises, and its state is that of
    the function followed by one logging call: at WARNING, from line 351,
    when the call returned and took longer than the threshold; at DEBUG,
    from line 356, when it returned within the threshold; at ERROR, from
    line 363, with the exception's type and text, when it raised an
    [Exception].  An exception outside [Exception], such as a
    cancellation, passes through with nothing logged.  Sinks and
    configuration are untouched, and every record delivered beyond those
    of the function is that of the logging call. *)
Theorem log_performance_transparent {A} (F : Type) (fsub : F -> F -> F)
    (fgt : F -> F -> bool) (format_3f float_str : F -> string)
    (threshold : F) (func_module func_name : string) (func : M A)
    (start_time end_time : F) (st : State) :
  let wrapped := log_performance F fsub fgt format_3f float_str threshold
                   func_module func_name func start_time end_time in
  let line := performance_line F fsub fgt format_3f float_str threshold
                func_module func_name start_time end_time (fst (func st)) in
  wrapped st = (fst (func st), after_line line (exec func st))
  /\ (forall exc, fst (func st) = Raise exc -> is_exception exc = false ->
        wrapped st = func st)
  /\ exists new,
       st_delivered (exec wrapped st)
       = (st_delivered (exec func st) ++ new)%list
       /\ sinks (exec wrapped st) = sinks (exec func st)
       /\ st_config (exec wrapped st) = st_config (exec func st)
       /\ forall i r, (i, r) ∈ new ->
            exists site lvl message,
              line = Some (site, lvl, message)
              /\ r_level r = lvl /\ r_message r = message
              /\ r_line r = cs_line site
              /\ r_level r
                 = performance_level (fgt (fsub end_time start_time) threshold)
                     (fst (func st)).
Proof.
  intros wrapped line.
  assert (wrapped st = (fst (func st), after_line line (exec func st))) as Heq.
  { subst wrapped line. unfold log_performance, try_except, exec.
    rewrite run_bind.
    destruct (func st) as [[a|exc] st1] eqn:Hf;
      cbn [fst snd performance_line]; unfold wrapper_site.
    - cbv zeta. destruct (fgt (fsub end_time start_time) threshold);
        cbn [after_line]; unfold exec; rewrite run_bind;
        match goal with |- context [logger_log ?s ?b ?l ?m st1] =>
          destruct (logger_log_run s b l m st1) as (st2 & Hl & _);
          rewrite !Hl
        end; reflexivity.
    - destruct (is_exception exc); [|reflexivity].
      cbv zeta. cbn [after_line]. unfold exec. rewrite run_bind.
      match goal with |- context [logger_log ?s ?b ?l ?m st1] =>
        destruct (logger_log_run s b l m st1) as (st2 & Hl & _);
        rewrite !Hl
      end. reflexivity. }
  split; [exact Heq|]. split.
  - intros exc Hexc Hbase. rewrite Heq. subst line. rewrite Hexc.
    cbn [performance_line]. rewrite Hbase. cbn [after_line]. unfold exec.
    destruct (func st) as [o st1]. cbn [fst snd] in *. now rewrite Hexc.
  - unfold exec at 1 3 5. rewrite Heq. cbn [snd].
    destruct (after_line_frame line (exec func st))
      as (new & Hd & Hc & Hcfg & Hnew).
    exists new. split; [exact Hd|]. unfold sinks. rewrite Hc.
    split; [reflexivity|]. split; [exact Hcfg|].
    intros i r Hin.
    destruct (Hnew i r Hin) as (site & lvl & message & Hline & Hlv & Hm & Hl & _).
    exists site, lvl, message. repeat split; auto.
    rewrite Hlv. subst line. unfold performance_line in Hline.
    destruct (fst (func st)) as [a|exc]; cbn [performance_level].
    + destruct (fgt (fsub end_time start_time) threshold);
        now injection Hline as _ <- _.
    + destruct (is_exception exc); [|discriminate].
      now injection Hline as _ <- _.
Qed.

(** X18.  When the wrapped function returns within the threshold and
    every sink is above DEBUG, a call through [log_performance] is
    indistinguishable from the call itself: same result, same state. *)
Theorem log_performance_quiet {A} (F : Type) (fsub : F -> F -> F)
    (fgt : F -> F -> bool) (format_3f float_str : F -> string)
    (threshold : F) (func_module func_name : string) (func : M A)
    (start_time end_time : F) (st st1 : State) (a : A) :
  func st = (Ok a, st1) ->
  fgt (fsub end_time start_time) threshold = false ->
  forallb (fun h => level_no DEBUG <? level_no (h_level h)) (sinks st1) = true ->
  log_performance F fsub fgt format_3f float_str threshold func_module
    func_name func start_time end_time st = (Ok a, st1).
Proof.
  intros Hf Hfast Hq. unfold log_performance, try_except.
  rewrite run_bind, Hf. cbv zeta. rewrite Hfast.
  rewrite run_bind, logger_log_dropped; [reflexivity|].
  right. now rewrite below_min_level_sinks.
Qed.

Lemma log_performance_quiet_witness :
  log_performance Z Z.sub Z.gtb pretty pretty 1 "app.jobs" "sync"
    (setup_logging default_setup) 10 11 sample_state
  = (Ok tt, exec (setup_logging default_setup) sample_state).
Proof.
  apply (log_performance_quiet Z Z.sub Z.gtb pretty pretty 1 "app.jobs" "sync"
           (setup_logging default_setup) 10 11 sample_state).
  - vm_compute. reflexivity.
  - reflexivity.
  - vm_compute. reflexivity.
Defined.

(** A slow call after the default set-up: the warning reaches the console
    and the api file. *)
Example log_performance_slow_call :
  map (fun ir => (r_level (snd ir), r_message (snd ir), r_line (snd ir)))
    (st_delivered
       (exec (log_performance Z Z.sub Z.gtb pretty pretty 1 "app.jobs" "sync"
                (mret tt) 10 13) sample_ready))
  = (map (fun ir => (r_level (snd ir), r_message (snd ir), r_line (snd ir)))
       (st_delivered sample_ready)
     ++ [(WARNING, "性能警告: app.jobs.sync 执行耗时 3s (阈值: 1s)", 351);
         (WARNING, "性能警告: app.jobs.sync 执行耗时 3s (阈值: 1s)", 351)])%list.
Proof. vm_compute. reflexivity. Qed.

(** A failing and a cancelled call after the default set-up: the failure
    is logged at ERROR to the console and the api error file, the
    cancellation is not logged. *)
Example log_performance_failing_and_cancelled :
  length (st_delivered
            (exec (log_performance Z Z.sub Z.gtb pretty pretty 1 "app.jobs"
                     "sync" failing 10 11) sample_ready))
  = (length (st_delivered sample_ready) + 2)%nat
  /\ log_performance Z Z.sub Z.gtb pretty pretty 1 "app.jobs" "sync"
       cancelled 10 11 sample_ready
     = (Raise (BaseException "CancelledError" ""), sample_ready)
  /\ log_exceptions "app.jobs" "sync" "()" "{}" cancelled sample_ready
     = (Raise (BaseException "CancelledError" ""), sample_ready).
Proof. vm_compute. repeat split; reflexivity. Qed.

(** X19.  A call through [log_exceptions] that returns is the call
    itself: same result, same state, nothing logged.  When the function
    raises an [Exception], the same exception is raised again after one
    logging call at ERROR, from line 390, whose message names the
    function, its arguments and the exception's type and text; sinks and
    configuration are untouched.  An exception outside [Exception] passes
    through with nothing logged. *)
Theorem log_exceptions_reraises {A} (func_module func_name args_repr
    kwargs_repr : string) (func : M A) (st : State) :
  log_exceptions func_module func_name args_repr kwargs_repr func st
  = (fst (func st),
     after_line (exception_line func_module func_name args_repr kwargs_repr
                   (fst (func st))) (exec func st))
  /\ (forall a st1, func st = (Ok a, st1) ->
        log_exceptions func_module func_name args_repr kwargs_repr func st
        = (Ok a, st1))
  /\ (forall exc st1, func st = (Raise exc, st1) -> is_exception exc = false ->
        log_exceptions func_module func_name args_repr kwargs_repr func st
        = (Raise exc, st1))
  /\ (forall exc st1, func st = (Raise exc, st1) -> is_exception exc = true ->
        exists st2 new,
          log_exceptions func_module func_name args_repr kwargs_repr func st
          = (Raise exc, st2)
          /\ st2 = exec (logger_log (wrapper_site 390) ∅ ERROR
                           (exception_message func_module func_name args_repr
                              kwargs_repr exc)) st1
          /\ st_delivered st2 = (st_delivered st1 ++ new)%list
          /\ sinks st2 = sinks st1 /\ st_config st2 = st_config st1
          /\ forall i r, (i, r) ∈ new ->
               r_level r = ERROR
               /\ r_message r
                  = exception_message func_module func_name args_repr
                      kwargs_repr exc).
Proof.
  unfold log_exceptions, try_except, exec. split; [|split; [|split]].
  - destruct (func st) as [[a|exc] st1]; cbn [fst snd exception_line];
      [reflexivity|].
    destruct (is_exception exc); [|reflexivity].
    fold (exception_message func_module func_name args_repr kwargs_repr exc).
    cbn [after_line]. unfold exec, wrapper_site.
    match goal with |- context [logger_log ?s ?b ?l ?m st1] =>
      destruct (logger_log_run s b l m st1) as (st2 & Hl & _)
    end.
    rewrite run_bind, !Hl. reflexivity.
  - intros a st1 ->. reflexivity.
  - intros exc st1 -> ->. reflexivity.
  - intros exc st1 -> ->.
    fold (exception_message func_module func_name args_repr kwargs_repr exc).
    fold (wrapper_site 390).
    match goal with |- context [logger_log ?s ?b ?l ?m] =>
      destruct (logger_log_records s b l m st1)
        as (st2 & new & Hl & Hd & Hc & Hcfg & Hnew)
    end.
    exists st2, new. rewrite run_bind, Hl. unfold sinks. rewrite Hc.
    repeat split; auto.
    all: now destruct (Hnew i r H) as (_ & ? & ? & _).
Qed.

(** ** Class loggers *)

(** X20.  Every record logged through [get_class_logger(obj)] carries
    [module.ClassName] under the key [name] of its [extra], the same for a
    class and for its instances, also after the patcher has stamped it; the
    record's own [name] field stays the module of the calling code. *)
Theorem class_logger_binds_name (is_class : bool) (name module : string)
    (site : CallSite) (lvl : Level) (message : string) (st : State) :
  exists st' new,
    logger_log site (get_class_logger (class_or_instance is_class name module))
      lvl message st = (Ok tt, st')
    /\ st_delivered st' = (st_delivered st ++ new)%list
    /\ forall i r, (i, r) ∈ new ->
         r_extra r !! "name" = Some (PyStr (module ++ "." ++ name))
         /\ r_name r = cs_name site.
Proof.
  set (bound := get_class_logger (class_or_instance is_class name module)).
  destruct (logger_log_records site bound lvl message st)
    as (st' & new & Hl & Hd & _ & _ & Hnew).
  destruct (logger_log_shape site bound lvl message st)
    as (st2 & new2 & Hl2 & Hd2 & Hshape).
  rewrite Hl in Hl2. injection Hl2 as <-.
  rewrite Hd in Hd2. apply app_inv_head in Hd2 as <-.
  exists st', new. split; [exact Hl|]. split; [exact Hd|].
  intros i r Hin. split.
  - destruct (Hnew i r Hin) as (_ & _ & _ & Hk).
    rewrite Hk by discriminate. subst bound.
    destruct is_class; cbn; apply lookup_singleton_eq.
  - now destruct (Hshape i r Hin) as (_ & ? & _).
Qed.

(** ** Trace ids across logging calls *)

Lemma logger_log_trace site bound lvl message st :
  patcher (st_core st) = Some StampPatcher ->
  exists st' new,
    logger_log site bound lvl message st = (Ok tt, st')
    /\ st_delivered st' = (st_delivered st ++ new)%list
    /\ st_core st' = st_core st
    /\ current_service_context st' = current_service_context st
    /\ (new = [] /\ st' = st
        \/ PyStr.truthy (current_trace_id st') = true
           /\ (PyStr.truthy (current_trace_id st) = true ->
               current_trace_id st' = current_trace_id st)
           /\ forall i r, (i, r) ∈ new ->
                r_extra r !! "trace_id" = Some (PyStr (current_trace_id st'))
                /\ r_extra r !! "service"
                   = Some (PyStr (value (current_service_context st)))).
Proof.
  intros Hp.
  destruct (handlers (st_core st)) as [|ih hs] eqn:Hh.
  { exists st, []. rewrite logger_log_dropped by (now left).
    rewrite app_nil_r. repeat split; auto. }
  destruct (below_min_level (level_no lvl) (st_core st)) eqn:Hb.
  { exists st, []. rewrite logger_log_dropped by (now right).
    rewrite app_nil_r. repeat split; auto. }
  destruct (logger_log_stamped site bound lvl message st Hp) as (t & st1 & Hg & ->);
    [congruence | exact Hb |].
  destruct (get_trace_id_frame st)
    as (t' & st1' & Hg' & Ht & Hcur & Hsvc & Hcore & _ & Hd & Hsame).
  rewrite Hg in Hg'. injection Hg' as <- <-.
  eexists. eexists. split; [reflexivity|].
  cbn [st_delivered set_delivered st_core]. rewrite Hd.
  split; [reflexivity|]. split; [exact Hcore|].
  split; [unfold current_service_context; cbn; now rewrite Hsvc|].
  right.
  change (current_trace_id (set_delivered _ st1)) with (current_trace_id st1).
  rewrite Hcur. split; [exact Ht|]. split.
  - intros Hset. rewrite (Hsame Hset) in Hcur. now rewrite Hcur.
  - intros i r Hin. apply in_deliveries in Hin as (-> & _).
    destruct (stamp_extra (built_record site bound lvl message st) t
                (current_service_context st)) as (H1 & H2 & _).
    split; assumption.
Qed.

(** X21.  With the module's patcher installed, two consecutive logging
    calls of one scope stamp every record they deliver with one and the
    same non-empty trace id (the scope's own when it has one, otherwise
    the one generated for the first record that gets through) and with the
    scope's service context. *)
Theorem records_of_a_scope_share_trace_id (site1 site2 : CallSite)
    (bound1 bound2 : gmap string pyval) (lvl1 lvl2 : Level)
    (message1 message2 : string) (st : State) :
  patcher (st_core st) = Some StampPatcher ->
  exists st1 st2 new1 new2 t,
    logger_log site1 bound1 lvl1 message1 st = (Ok tt, st1)
    /\ logger_log site2 bound2 lvl2 message2 st1 = (Ok tt, st2)
    /\ st_delivered st1 = (st_delivered st ++ new1)%list
    /\ st_delivered st2 = (st_delivered st1 ++ new2)%list
    /\ t <> ""
    /\ (PyStr.truthy (current_trace_id st) = true -> t = current_trace_id st)
    /\ forall i r, (i, r) ∈ (new1 ++ new2)%list ->
         r_extra r !! "trace_id" = Some (PyStr t)
         /\ r_extra r !! "service"
            = Some (PyStr (value (current_service_context st))).
Proof.
  intros Hp.
  destruct (logger_log_trace site1 bound1 lvl1 message1 st Hp)
    as (st1 & new1 & Hr1 & Hd1 & Hc1 & Hs1 & Hcase1).
  assert (patcher (st_core st1) = Some StampPatcher) as Hp1 by now rewrite Hc1.
  destruct (logger_log_trace site2 bound2 lvl2 message2 st1 Hp1)
    as (st2 & new2 & Hr2 & Hd2 & Hc2 & Hs2 & Hcase2).
  exists st1, st2, new1, new2.
  destruct (PyStr.truthy (current_trace_id st2)) eqn:Ht2.
  - exists (current_trace_id st2).
    split; [exact Hr1|]. split; [exact Hr2|]. split; [exact Hd1|].
    split; [exact Hd2|].
    split; [intros E; rewrite E in Ht2; discriminate|].
    assert (PyStr.truthy (current_trace_id st1) = true ->
            current_trace_id st2 = current_trace_id st1) as H21.
    { destruct Hcase2 as [(_ & ->)|(_ & H & _)]; auto. }
    assert (PyStr.truthy (current_trace_id st) = true ->
            current_trace_id st1 = current_trace_id st) as H10.
    { destruct Hcase1 as [(_ & ->)|(_ & H & _)]; auto. }
    split.
    + intros Hset. rewrite H21; [now apply H10|]. now rewrite H10.
    + intros i r Hin. apply elem_of_app in Hin as [Hin|Hin].
      * destruct Hcase1 as [(-> & _)|(Htr & _ & Hrec)];
          [exfalso; eapply not_elem_of_nil; eauto|].
        rewrite (H21 Htr). now apply (Hrec i r).
      * destruct Hcase2 as [(-> & _)|(_ & _ & Hrec)];
          [exfalso; eapply not_elem_of_nil; eauto|].
        rewrite <- Hs1. now apply (Hrec i r).
  - exists "-".
    assert (new2 = [] /\ st2 = st1) as (-> & ->).
    { destruct Hcase2 as [?|(Htr & _)]; [assumption | congruence]. }
    assert (new1 = [] /\ st1 = st) as (-> & ->).
    { destruct Hcase1 as [?|(Htr & _)]; [assumption | congruence]. }
    split; [exact Hr1|]. split; [exact Hr2|]. split; [exact Hd1|].
    split; [exact Hd2|]. split; [discriminate|].
    split; [congruence|].
    intros i r Hin. exfalso. eapply not_elem_of_nil; eauto.
Qed.

Lemma records_of_a_scope_share_trace_id_witness :
  exists st1 st2 new1 new2 t,
    logger_log setup_site ∅ INFO "first" sample_ready = (Ok tt, st1)
    /\ logger_log setup_site ∅ ERROR "second" st1 = (Ok tt, st2)
    /\ st_delivered st1 = (st_delivered sample_ready ++ new1)%list
    /\ st_delivered st2 = (st_delivered st1 ++ new2)%list
    /\ t = current_trace_id sample_ready.
Proof.
  destruct (records_of_a_scope_share_trace_id setup_site setup_site ∅ ∅
              INFO ERROR "first" "second" sample_ready)
    as (st1 & st2 & new1 & new2 & t & H1 & H2 & H3 & H4 & _ & Ht & _).
  - vm_compute. reflexivity.
  - exists st1, st2, new1, new2, t. repeat split; try assumption.
    apply Ht. vm_compute. reflexivity.
Defined.
